(** * pypiserver core: package-metadata inference from file names

    A shallow embedding of [pypiserver/core.py] and the properties of its
    version keys, name normalisation, file-name guesser, directory scan,
    package filter and hash-fragment memo.

    Python [str] values are modelled by [string]: a character is a code point
    in the range 0..255, ordered by its code, which is how Python compares
    and classifies the characters of that range ([\d] is 0-9 only there,
    [[a-z]] under [re.I] is the 52 ASCII letters only). *)

From Stdlib Require Import Bool Arith NArith List ListSet Ascii String Lia.
Import ListNotations.

Open Scope bool_scope.
Open Scope string_scope.

(** ** Characters and basic [str] operations *)

Module Py.

Definition code (c : ascii) : N := N_of_ascii c.

Definition in_range (lo hi : N) (c : ascii) : bool :=
  ((lo <=? code c) && (code c <=? hi))%N.

(** [\d] *)
Definition is_digit (c : ascii) : bool := in_range 48 57 c.

(** [[a-z]] under [re.I] *)
Definition is_alpha (c : ascii) : bool := in_range 97 122 c || in_range 65 90 c.

(** [.] without [re.DOTALL]: anything but a newline *)
Definition is_dot (c : ascii) : bool := negb (code c =? 10)%N.

(** One character of [str.lower()]: A-Z and the upper-case letters of the
    range 192..222 (all of it but the multiplication sign 215) move up by 32. *)
Definition lower_char (c : ascii) : ascii :=
  if in_range 65 90 c || (in_range 192 222 c && negb (code c =? 215)%N)
  then ascii_of_N (code c + 32)
  else c.

Fixpoint lower (s : string) : string :=
  match s with
  | EmptyString => EmptyString
  | String c s' => String (lower_char c) (lower s')
  end.

(** Equality of characters as a pattern compiled with [re.I] sees it. *)
Definition eqb_nocase (a b : ascii) : bool :=
  Ascii.eqb (lower_char a) (lower_char b).

Definition snoc (s : string) (c : ascii) : string := s ++ String c "".

Definition truthy (s : string) : bool :=
  match s with EmptyString => false | _ => true end.

(** [s.startswith(p)] *)
Fixpoint startswith (s p : string) {struct p} : bool :=
  match p with
  | EmptyString => true
  | String a p' =>
      match s with
      | String b s' => Ascii.eqb a b && startswith s' p'
      | EmptyString => false
      end
  end.

(** [s.endswith(suf)]: some suffix of [s] is [suf]. *)
Fixpoint endswith (s suf : string) : bool :=
  if String.eqb s suf then true
  else match s with
       | EmptyString => false
       | String _ s' => endswith s' suf
       end.

(** [sub in s] *)
Fixpoint contains (s sub : string) : bool :=
  if startswith s sub then true
  else match s with
       | EmptyString => false
       | String _ s' => contains s' sub
       end.

Fixpoint mem_char (c : ascii) (chars : string) : bool :=
  match chars with
  | EmptyString => false
  | String d r => Ascii.eqb c d || mem_char c r
  end.

(** [s.count(c)] for a one-character [c] *)
Fixpoint count_char (c : ascii) (s : string) : nat :=
  match s with
  | EmptyString => 0
  | String d r => (if Ascii.eqb c d then 1 else 0) + count_char c r
  end.

(** [s.rstrip(chars)]: drops the longest tail made of characters of [chars]. *)
Fixpoint rstrip (chars s : string) : string :=
  match s with
  | EmptyString => EmptyString
  | String c s' =>
      match rstrip chars s' with
      | EmptyString => if mem_char c chars then EmptyString else String c EmptyString
      | r => String c r
      end
  end.

(** [s.replace(a, b)] for one-character [a] and [b] *)
Fixpoint replace_char (a b : ascii) (s : string) : string :=
  match s with
  | EmptyString => EmptyString
  | String c s' => String (if Ascii.eqb c a then b else c) (replace_char a b s')
  end.

(** [s[n:]] *)
Fixpoint drop (n : nat) (s : string) : string :=
  match n, s with
  | O, _ => s
  | S _, EmptyString => EmptyString
  | S n', String _ s' => drop n' s'
  end.

Fixpoint zeros (n : nat) : string :=
  match n with O => EmptyString | S n' => String "0" (zeros n') end.

(** [s.zfill(width)]: zeros go after a leading sign. *)
Definition zfill (width : nat) (s : string) : string :=
  let pad := zeros (width - String.length s) in
  match s with
  | String c r =>
      if mem_char c "+-" then String c (pad ++ r) else pad ++ s
  | EmptyString => pad
  end.

(** [a < b] on [str]: by code points, a proper prefix first. *)
Definition str_lt (a b : string) : bool := String.ltb a b.

(** [a < b] on tuples of [str]: the first position where the two differ
    decides, a proper prefix is smaller. *)
Fixpoint tuple_lt (a b : list string) : bool :=
  match a, b with
  | [], [] => false
  | [], _ :: _ => true
  | _ :: _, [] => false
  | x :: a', y :: b' => if String.eqb x y then tuple_lt a' b' else str_lt x y
  end.

End Py.

(** ** Version keys ([parse_version], adapted from distribute's pkg_resources) *)

(** [component_re.split(s)] for [component_re = (\d+ | [a-z]+ | \. | -)]
    (verbose, ignoring case).  The scan goes left to right; a match is a
    maximal run of digits, a maximal run of letters, one dot or one dash.
    The result alternates unmatched text and matched component, starting and
    ending with unmatched text. *)
Inductive scan_state : Type :=
| Gap (g : string)         (* collecting unmatched text *)
| DigitRun (t : string)    (* inside a match of \d+ *)
| LetterRun (t : string).  (* inside a match of [a-z]+ *)

Fixpoint component_split_from (st : scan_state) (s : string) : list string :=
  match s with
  | EmptyString =>
      match st with
      | Gap g => [g]
      | DigitRun t | LetterRun t => [t; ""]
      end
  | String c s' =>
      let fresh (g : string) : list string :=
        if Py.is_digit c then g :: component_split_from (DigitRun (String c "")) s'
        else if Py.is_alpha c then g :: component_split_from (LetterRun (String c "")) s'
        else if Ascii.eqb c "." || Ascii.eqb c "-"
             then g :: String c "" :: component_split_from (Gap "") s'
        else component_split_from (Gap (Py.snoc g c)) s' in
      match st with
      | Gap g => fresh g
      | DigitRun t =>
          if Py.is_digit c then component_split_from (DigitRun (Py.snoc t c)) s'
          else t :: fresh ""
      | LetterRun t =>
          if Py.is_alpha c then component_split_from (LetterRun (Py.snoc t c)) s'
          else t :: fresh ""
      end
  end.

Definition component_split (s : string) : list string :=
  component_split_from (Gap "") s.

(** [replace = {...}.get], called as [replace(part, part)] *)
Definition replace (part : string) : string :=
  if part =? "pre" then "c"
  else if part =? "preview" then "c"
  else if part =? "-" then "final-"
  else if part =? "rc" then "c"
  else if part =? "dev" then "@"
  else part.

(** [part[:1] in "0123456789"], for a non-empty [part] *)
Definition starts_with_digit (part : string) : bool :=
  match part with
  | String c _ => Py.mem_char c "0123456789"
  | EmptyString => true
  end.

(** The body of the loop of [_parse_version_parts]: what one piece of the
    split yields. *)
Definition version_part (piece : string) : list string :=
  let part := replace piece in
  if (part =? "") || (part =? ".") then []
  else if starts_with_digit part then [Py.zfill 8 part]
  else ["*" ++ part].

Definition _parse_version_parts (s : string) : list string :=
  flat_map version_part (component_split s) ++ ["*final"].

(** [while parts and parts[-1] == "00000000": parts.pop()], on the list of
    parts kept with its last element first. *)
Fixpoint pop_zeros (rparts : list string) : list string :=
  match rparts with
  | p :: r => if p =? "00000000" then pop_zeros r else rparts
  | [] => []
  end.

(** One iteration of the loop of [parse_version]. *)
Definition push_part (rparts : list string) (part : string) : list string :=
  part :: (if Py.startswith part "*" then pop_zeros rparts else rparts).

Definition parse_version (s : string) : list string :=
  rev (fold_left push_part (_parse_version_parts (Py.lower s)) []).

(** ** Regular expressions as backtracking matchers

    A pattern is written as a matcher in continuation-passing style: it takes
    what has to match after it and the text at the current position, tries
    its possibilities in the order of Python's [re] engine, and gives the
    first result the continuation accepts. *)

Module Re.

Definition newline : string := String "010" "".

(** A literal; under [re.I] when [nocase] is set. *)
Fixpoint lit {R : Type} (nocase : bool) (l : string)
    (k : string -> option R) (s : string) : option R :=
  match l with
  | EmptyString => k s
  | String a l' =>
      match s with
      | String c s' =>
          if (if nocase then Py.eqb_nocase a c else Ascii.eqb a c)
          then lit nocase l' k s' else None
      | EmptyString => None
      end
  end.

(** One character of a class. *)
Definition char {R : Type} (p : ascii -> bool)
    (k : ascii -> string -> option R) (s : string) : option R :=
  match s with
  | String c s' => if p c then k c s' else None
  | EmptyString => None
  end.

(** [p*?]: the shortest run first.  The continuation gets the run. *)
Fixpoint lazy_star {R : Type} (p : ascii -> bool)
    (k : string -> string -> option R) (s : string) : option R :=
  match k "" s with
  | Some r => Some r
  | None =>
      match s with
      | String c s' =>
          if p c then lazy_star p (fun t => k (String c t)) s' else None
      | EmptyString => None
      end
  end.

(** [p+?] *)
Definition lazy_plus {R : Type} (p : ascii -> bool)
    (k : string -> string -> option R) (s : string) : option R :=
  char p (fun c => lazy_star p (fun t => k (String c t))) s.

(** [p*]: the longest run first. *)
Fixpoint greedy_star {R : Type} (p : ascii -> bool)
    (k : string -> string -> option R) (s : string) : option R :=
  match s with
  | String c s' =>
      if p c then
        match greedy_star p (fun t => k (String c t)) s' with
        | Some r => Some r
        | None => k "" s
        end
      else k "" s
  | EmptyString => k "" s
  end.

(** [p+] *)
Definition greedy_plus {R : Type} (p : ascii -> bool)
    (k : string -> string -> option R) (s : string) : option R :=
  char p (fun c => greedy_star p (fun t => k (String c t))) s.

(** [a|b] *)
Definition alt {R : Type} (a b : string -> option R) (s : string) : option R :=
  match a s with
  | Some r => Some r
  | None => b s
  end.

(** [$] without [re.M]: at the end, or before a newline that ends the text. *)
Definition at_end {R : Type} (k : string -> option R) (s : string) : option R :=
  if (s =? "") || (s =? newline) then k s else None.

(** [(?=a)]: [a] matches here; nothing is consumed. *)
Definition lookahead {R : Type} (a : (string -> option unit) -> string -> option unit)
    (k : string -> option R) (s : string) : option R :=
  match a (fun _ => Some tt) s with
  | Some _ => k s
  | None => None
  end.

(** [pattern.search]: the match at the leftmost position that has one; the
    result comes with the text before the match. *)
Fixpoint search_from {R : Type} (m : string -> option R)
    (before s : string) : option (string * R) :=
  match m s with
  | Some r => Some (before, r)
  | None =>
      match s with
      | String c s' => search_from m (Py.snoc before c) s'
      | EmptyString => None
      end
  end.

Definition search {R : Type} (m : string -> option R) (s : string) :=
  search_from m "" s.

(** [pattern.split(s)[0]] for a pattern that matches no empty text: the text
    before the first match, all of [s] without a match. *)
Definition split_head {R : Type} (m : string -> option R) (s : string) : string :=
  match search m s with
  | Some (before, _) => before
  | None => s
  end.

End Re.

(** ** The file-name guesser *)

(** [py[23]\.\d], ignoring case *)
Definition py_tag {R : Type} (k : string -> option R) : string -> option R :=
  Re.lit true "py"
    (Re.char (fun c => Py.mem_char c "23") (fun _ =>
     Re.lit true "."
       (Re.char Py.is_digit (fun _ => k)))).

(** [_archive_suffix_rx] at one position:
    [(\.zip|\.tar\.gz|\.tgz|\.tar\.bz2|-py[23]\.\d-.*|\.win-amd64-py[23]\.\d\..*|\.win32-py[23]\.\d\..*|\.egg)$]
    ignoring case.  A match gives the text left after it (nothing, or the
    newline that [$] allows). *)
Definition _archive_suffix_rx (s : string) : option string :=
  let fin := Re.at_end (fun rest => Some rest) in
  let any_to_end := Re.greedy_star Py.is_dot (fun _ => fin) in
  Re.alt (Re.lit true ".zip" fin)
 (Re.alt (Re.lit true ".tar.gz" fin)
 (Re.alt (Re.lit true ".tgz" fin)
 (Re.alt (Re.lit true ".tar.bz2" fin)
 (Re.alt (Re.lit true "-" (py_tag (Re.lit true "-" any_to_end)))
 (Re.alt (Re.lit true ".win-amd64-" (py_tag (Re.lit true "." any_to_end)))
 (Re.alt (Re.lit true ".win32-" (py_tag (Re.lit true "." any_to_end)))
         (Re.lit true ".egg" fin))))))) s.

(** The groups of [wheel_file_re] that the guesser reads. *)
Record wheel_groups : Type := {
  wheel_name : string;
  wheel_ver : string;
  wheel_build : option string
}.

(** [-(?P<pyver>.+?)-(?P<abi>.+?)-(?P<plat>.+?)\.whl] up to [$] *)
Definition wheel_tags {R : Type} (r : R) : string -> option R :=
  Re.lit false "-" (Re.lazy_plus Py.is_dot (fun _pyver =>
  Re.lit false "-" (Re.lazy_plus Py.is_dot (fun _abi =>
  Re.lit false "-" (Re.lazy_plus Py.is_dot (fun _plat =>
  Re.lit false ".whl" (Re.at_end (fun _ => Some r)))))))).

(** [wheel_file_re.match]:
    [^(?P<namever>(?P<name>.+?)-(?P<ver>\d.*?))
      ((-(?P<build>\d.*?))?-(?P<pyver>.+?)-(?P<abi>.+?)-(?P<plat>.+?)\.whl|\.dist-info)$] *)
Definition wheel_file_re (s : string) : option wheel_groups :=
  Re.lazy_plus Py.is_dot (fun name =>
  Re.lit false "-" (
  Re.char Py.is_digit (fun d => Re.lazy_star Py.is_dot (fun v =>
    let ver := String d v in
    Re.alt
      (Re.alt
         (Re.lit false "-" (
          Re.char Py.is_digit (fun b => Re.lazy_star Py.is_dot (fun bs =>
            wheel_tags {| wheel_name := name; wheel_ver := ver;
                          wheel_build := Some (String b bs) |}))))
         (wheel_tags {| wheel_name := name; wheel_ver := ver;
                        wheel_build := None |}))
      (Re.lit false ".dist-info"
         (Re.at_end (fun _ =>
            Some {| wheel_name := name; wheel_ver := ver;
                    wheel_build := None |}))))))) s.

(** [_pkgname_re = -\d+[a-z_.!+]], ignoring case, at one position *)
Definition _pkgname_re (s : string) : option unit :=
  Re.lit true "-" (
  Re.greedy_plus Py.is_digit (fun _ =>
  Re.char (fun c => Py.is_alpha c || Py.mem_char c "_.!+") (fun _ _ => Some tt))) s.

(** [_pkgname_parts_re =
     [\.\-](?=cp\d|py\d|macosx|linux|sunos|solaris|irix|aix|cygwin|win)],
    ignoring case, at one position *)
Definition _pkgname_parts_re (s : string) : option unit :=
  Re.char (fun c => Py.mem_char c ".-") (fun _ =>
  Re.lookahead (fun k =>
    Re.alt (Re.lit true "cp" (Re.char Py.is_digit (fun _ => k)))
   (Re.alt (Re.lit true "py" (Re.char Py.is_digit (fun _ => k)))
   (Re.alt (Re.lit true "macosx" k)
   (Re.alt (Re.lit true "linux" k)
   (Re.alt (Re.lit true "sunos" k)
   (Re.alt (Re.lit true "solaris" k)
   (Re.alt (Re.lit true "irix" k)
   (Re.alt (Re.lit true "aix" k)
   (Re.alt (Re.lit true "cygwin" k)
           (Re.lit true "win" k))))))))))
    (fun _ => Some tt)) s.

(** What the guesser returns: bare [None], the pair [(None, None)], or a
    pair of two strings. *)
Inductive guess : Type :=
| NoGuess
| NonePair
| Pair (pkgname version : string).

(** [bool(res)]: only bare [None] is false; a 2-tuple is true whatever it holds. *)
Definition guess_truthy (g : guess) : bool :=
  match g with
  | NoGuess => false
  | NonePair | Pair _ _ => true
  end.

Definition _guess_pkgname_and_version_wheel (basename : string) : guess :=
  match wheel_file_re basename with
  | None => NonePair
  | Some m =>
      match wheel_build m with
      | Some build =>
          if Py.truthy build
          then Pair (wheel_name m) (wheel_ver m ++ "-" ++ build)
          else Pair (wheel_name m) (wheel_ver m)
      | None => Pair (wheel_name m) (wheel_ver m)
      end
  end.

(** [os.path.basename]: what follows the last slash. *)
Fixpoint basename (p : string) : string :=
  match p with
  | EmptyString => EmptyString
  | String c p' =>
      if Py.contains p' "/" then basename p'
      else if Ascii.eqb c "/" then p' else p
  end.

(** [s.split(c, 1)] for [s] that holds [c]: around the first [c]. *)
Fixpoint split_first (c : ascii) (s : string) : string * string :=
  match s with
  | EmptyString => (EmptyString, EmptyString)
  | String d s' =>
      if Ascii.eqb d c then (EmptyString, s')
      else let (a, b) := split_first c s' in (String d a, b)
  end.

(** [s.rsplit(c, 1)] for [s] that holds [c]: around the last [c]. *)
Fixpoint rsplit_last (c : ascii) (s : string) : string * string :=
  match s with
  | EmptyString => (EmptyString, EmptyString)
  | String d s' =>
      if (0 <? Py.count_char c s')%nat
      then let (a, b) := rsplit_last c s' in (String d a, b)
      else if Ascii.eqb d c then (EmptyString, s') else (s, EmptyString)
  end.

(** The rest of [guess_pkgname_and_version], from the test for ".whl" on. *)
Definition guess_stripped (path : string) : guess :=
  if Py.endswith path ".whl" then _guess_pkgname_and_version_wheel path
  else
    match Re.search _archive_suffix_rx path with
    | None => NoGuess
    | Some (before, after) =>
        (* _archive_suffix_rx.sub("", path): the one match is taken out *)
        let path := before ++ after in
        if negb (Py.contains path "-") then Pair path ""
        else if (Py.count_char "-" path =? 1)%nat then
          let (pkgname, version) := split_first "-" path in Pair pkgname version
        else if negb (Py.contains path ".") then
          let (pkgname, version) := rsplit_last "-" path in Pair pkgname version
        else
          let pkgname := Re.split_head _pkgname_re path in
          let ver_spec := Py.drop (String.length pkgname + 1) path in
          let version := Re.split_head _pkgname_parts_re ver_spec in
          Pair pkgname version
    end.

(** The first three lines of [guess_pkgname_and_version]: the base name,
    with [rstrip(".asc")] applied when it ends with ".asc". *)
Definition strip_signature (path : string) : string :=
  let path := basename path in
  if Py.endswith path ".asc" then Py.rstrip ".asc" path else path.

Definition guess_pkgname_and_version (path : string) : guess :=
  guess_stripped (strip_signature path).

(** ** Name normalisation and the path check *)

(** A character of [[-_.]] *)
Definition is_separator (c : ascii) : bool := Py.mem_char c "-_.".

(** [re.sub(r"[-_.]+", "-", name)]: scanning left to right, a maximal run of
    separators becomes one dash; [in_run] tells that the previous character
    was part of the run being replaced. *)
Fixpoint sub_separators (in_run : bool) (name : string) : string :=
  match name with
  | EmptyString => EmptyString
  | String c r =>
      if is_separator c
      then (if in_run then sub_separators true r
            else String "-" (sub_separators true r))
      else String c (sub_separators false r)
  end.

Definition normalize_pkgname (name : string) : string :=
  Py.lower (sub_separators false name).

Definition is_allowed_path (path_part : string) : bool :=
  let p := Py.replace_char "\" "/" path_part in
  negb (Py.startswith p "." || Py.contains p "/.").

(** ** Package records *)

#[local] Set Warnings "-register-all".

(** [PkgFile].  A slot that was never assigned is [None]; [fn], [root] and
    [relfn] may hold Python's [None], and so may the memo of
    [fname_and_hash] once it is assigned. *)
Inductive PkgFile : Type := mkPkgFile {
  fn : option string;
  root : option string;
  _fname_and_hash : option (option string);
  relfn : option string;
  relfn_unix : option string;
  pkgname_norm : string;
  pkgname : string;
  version : string;
  parsed_version : list string;
  replaces : option PkgFile
}.

(** [PkgFile.__init__] *)
Definition PkgFile_init (pkgname version : string)
    (fn root relfn : option string) (replaces : option PkgFile) : PkgFile :=
  {| pkgname := pkgname;
     pkgname_norm := normalize_pkgname pkgname;
     version := version;
     parsed_version := parse_version version;
     fn := fn;
     root := root;
     relfn := relfn;
     relfn_unix := option_map (Py.replace_char "\" "/") relfn;
     replaces := replaces;
     _fname_and_hash := None |}.

(** [f"{v}"] for a value that is a string or [None] *)
Definition format_value (v : option string) : string :=
  match v with
  | Some s => s
  | None => "None"
  end.

Definition set_fname_and_hash (self : PkgFile) (v : option string) : PkgFile :=
  {| fn := fn self; root := root self; _fname_and_hash := Some v;
     relfn := relfn self; relfn_unix := relfn_unix self;
     pkgname_norm := pkgname_norm self; pkgname := pkgname self;
     version := version self; parsed_version := parsed_version self;
     replaces := replaces self |}.

(** [PkgFile.fname_and_hash].  [digest_file] reads the file system: it is a
    parameter, and it gives [None] when it raises.  The method returns its
    value with the record as it leaves it, or [None] when the call raises
    (nothing is assigned then). *)
Definition fname_and_hash (digest_file : option string -> string -> option string)
    (self : PkgFile) (hash_algo : string) : option (option string * PkgFile) :=
  match _fname_and_hash self with
  | Some memo => Some (memo, self)
  | None =>
      if Py.truthy hash_algo then
        match digest_file (fn self) hash_algo with
        | Some digest =>
            let v := Some (format_value (relfn_unix self) ++ "#" ++ hash_algo
                           ++ "=" ++ digest) in
            Some (v, set_fname_and_hash self v)
        | None => None
        end
      else
        let v := relfn_unix self in
        Some (v, set_fname_and_hash self v)
  end.

(** ** The directory scan *)

(** A directory tree as [os.walk] sees it: an entry is a sub-directory with
    its own entries, or something else, for which [os.path.isfile] answers
    [isfile]. *)
Inductive entry : Type :=
| File (name : string) (isfile : bool)
| Dir (name : string) (entries : list entry).

(** Names a directory listing can hold: not empty, no slash. *)
Definition valid_name (name : string) : bool :=
  Py.truthy name && negb (Py.contains name "/").

Fixpoint valid_entry (e : entry) : bool :=
  match e with
  | File name _ => valid_name name
  | Dir name entries =>
      valid_name name
      && (fix all (l : list entry) : bool :=
            match l with
            | [] => true
            | e' :: l' => valid_entry e' && all l'
            end) entries
  end.

Definition valid_entries (l : list entry) : bool := forallb valid_entry l.

(** [os.path.join(a, b)] (POSIX) *)
Definition path_join (a b : string) : string :=
  if Py.startswith b "/" then b
  else if (a =? "") || Py.endswith a "/" then a ++ b
  else a ++ "/" ++ b.

(** The body of the loop over [filenames] in [_listdir], for one entry [x] of
    the directory [dirpath]. *)
Definition listdir_file (root dirpath : string) (e : entry) : list PkgFile :=
  match e with
  | Dir _ _ => []
  | File x isfile =>
      let fn := path_join (path_join root dirpath) x in
      if negb (is_allowed_path x) || negb isfile then []
      else
        let res := guess_pkgname_and_version x in
        if negb (guess_truthy res) then []
        else
          match res with
          | Pair pkgname version =>
              if Py.truthy pkgname
              then [PkgFile_init pkgname version (Some fn) (Some root)
                      (Some (Py.drop (String.length root + 1) fn)) None]
              else []
          | _ => []
          end
  end.

(** [_listdir] from the directory [dir] down, [dirpath] being its path.
    [os.walk] hands out [dirpath] with its sub-directories and its other
    entries; the loop body first cuts the sub-directories down to the allowed
    ones, which is the list [os.walk] then descends into, each as
    [os.path.join(dirpath, name)]. *)
Fixpoint listdir_walk (root dirpath : string) (dir : entry) : list PkgFile :=
  match dir with
  | File _ _ => []
  | Dir _ entries =>
      (flat_map (listdir_file root dirpath) entries
       ++ flat_map (fun e =>
            match e with
            | File _ _ => []
            | Dir name _ =>
                if is_allowed_path name
                then listdir_walk root (path_join dirpath name) e
                else []
            end) entries)%list
  end.

(** [_listdir(root)] for a [root] that [os.path.abspath] leaves as it is (an
    absolute, normalised path) and that holds [entries]. *)
Definition _listdir (root : string) (entries : list entry) : list PkgFile :=
  listdir_walk root root (Dir root entries).

(** ** Queries *)

(** [find_packages]: the records the generator yields, in order. *)
Definition find_packages (pkgs : list PkgFile) (prefix : string) : list PkgFile :=
  let prefix := normalize_pkgname prefix in
  filter (fun x => negb (Py.truthy prefix && negb (pkgname_norm x =? prefix))) pkgs.

(** [get_prefixes]: the set of names is kept as a list without repetition. *)
Definition get_prefixes (pkgs : list PkgFile) : list string :=
  fold_left (fun normalized_pkgnames x =>
               if Py.truthy (pkgname x)
               then set_add string_dec (pkgname_norm x) normalized_pkgnames
               else normalized_pkgnames)
            pkgs (empty_set string).

(** ** URLs *)

(** The digit of [n] below 16 in upper-case hexadecimal. *)
Definition hex_digit (n : N) : ascii :=
  if (n <? 10)%N then ascii_of_N (48 + n) else ascii_of_N (55 + n).

(** ["%{:02X}".format(b)] for a byte [b] *)
Definition percent_byte (b : N) : string :=
  String "%" (String (hex_digit (b / 16)) (String (hex_digit (b mod 16)) "")).

(** The UTF-8 encoding of a code point below 256. *)
Definition utf8_bytes (c : ascii) : list N :=
  if (Py.code c <? 128)%N then [Py.code c]
  else [(192 + Py.code c / 64)%N; (128 + Py.code c mod 64)%N].

(** The characters [urllib.parse.quote] leaves as they are: letters, digits,
    ["_.-~"] and, with the default [safe], the slash. *)
Definition quote_safe (c : ascii) : bool :=
  Py.is_alpha c || Py.is_digit c || Py.mem_char c "_.-~" || Ascii.eqb c "/".

Definition quote_char (c : ascii) : string :=
  if quote_safe c then String c ""
  else fold_right (fun b s => percent_byte b ++ s) "" (utf8_bytes c).

(** [urllib.parse.quote(s)] *)
Fixpoint quote (s : string) : string :=
  match s with
  | EmptyString => EmptyString
  | String c r => quote_char c ++ quote r
  end.

Definition normalize_pkgname_for_url (name : string) : string :=
  quote (normalize_pkgname name).

(** [s[:-1]] *)
Fixpoint drop_last (s : string) : string :=
  match s with
  | EmptyString => EmptyString
  | String c r =>
      match r with
      | EmptyString => EmptyString
      | String _ _ => String c (drop_last r)
      end
  end.

(** [get_bad_url_redirect_path]; of the request only [custom_fullpath] is
    read.  [rsplit("/", 1)[0]] is the text before the last slash, all of the
    text when it has none. *)
Definition get_bad_url_redirect_path (custom_fullpath prefix : string) : string :=
  let p := custom_fullpath in
  let p := if Py.endswith p "/" then drop_last p else p in
  let p := fst (rsplit_last "/" p) in
  let prefix := quote prefix in
  p ++ "/simple/" ++ prefix ++ "/".

(** ** Files under the root *)

(** The exceptions the module raises itself or lets through. *)
Inductive py_error : Type :=
| AssertionError
| ValueError
| OSError.

Inductive outcome (A : Type) : Type :=
| Returns (a : A)
| Raises (e : py_error).

Arguments Returns {A} a.
Arguments Raises {A} e.

(** [exists(root, filename)]; [os_path_exists] tells which paths exist. *)
Definition exists_ (os_path_exists : string -> bool) (root filename : string)
  : outcome bool :=
  if Py.contains filename "/" then Raises AssertionError
  else
    let dest_fn := path_join root filename in
    Returns (os_path_exists dest_fn).

(** [store(root, filename, save_method)]; the result is what
    [save_method(dest_fn, overwrite=True)] does. *)
Definition store {A : Type} (root filename : string)
    (save_method : string -> bool -> A) : outcome A :=
  if Py.contains filename "/" then Raises AssertionError
  else
    let dest_fn := path_join root filename in
    Returns (save_method dest_fn true).

(** ** Digests *)




(** ** Notions the properties are stated with *)

(** A token of a version key that carries the sentinel. *)
Definition is_sentinel (token : string) : bool := Py.startswith token "*".

Fixpoint all_digits (s : string) : bool :=
  match s with
  | EmptyString => true
  | String c r => Py.is_digit c && all_digits r
  end.

(** A numeric token of a version key: digits only, at least eight of them. *)
Definition is_numeric (token : string) : bool :=
  all_digits token && (8 <=? String.length token)%nat.

(** Some element of [l] and the one right after it satisfy [P]. *)
Fixpoint adjacent (P : string -> string -> bool) (l : list string) : bool :=
  match l with
  | x :: (y :: _) as r => P x y || adjacent P r
  | _ => false
  end.

(** A zero token stands right before a token with the sentinel. *)
Definition zero_before_sentinel (key : list string) : bool :=
  adjacent (fun x y => (x =? "00000000") && is_sentinel y) key.

Definition nondigit_start (s : string) : bool :=
  match s with
  | String c _ => negb (Py.is_digit c)
  | EmptyString => true
  end.

(** A piece of the split that starts with a digit is a run of digits. *)
Definition piece_ok (p : string) : bool := all_digits p || nondigit_start p.

Definition state_ok (st : scan_state) : bool :=
  match st with
  | Gap g => nondigit_start g
  | DigitRun t => all_digits t
  | LetterRun t => nondigit_start t
  end.

(** [t] written [n] times *)
Fixpoint repeat_string (t : string) (n : nat) : string :=
  match n with
  | O => EmptyString
  | S n' => t ++ repeat_string t n'
  end.

(** [s.split(c)] *)
Fixpoint split_on (c : ascii) (s : string) : list string :=
  match s with
  | EmptyString => [EmptyString]
  | String d r =>
      if Ascii.eqb d c then EmptyString :: split_on c r
      else match split_on c r with
           | seg :: segs => String d seg :: segs
           | [] => [String d EmptyString]
           end
  end.

(** The segments of a path, either separator accepted. *)
Definition path_segments (p : string) : list string :=
  split_on "/" (Py.replace_char "\" "/" p).

Definition is_hidden (segment : string) : bool := Py.startswith segment ".".

(** The normaliser as the specification words it: the name is cut into its
    maximal runs of separators and of other characters; a run of separators
    becomes one dash, another run is lowercased. *)
Fixpoint runs (s : string) : list (bool * string) :=
  match s with
  | EmptyString => []
  | String c r =>
      match runs r with
      | (b, run) :: rest =>
          if Bool.eqb b (is_separator c) then (b, String c run) :: rest
          else (is_separator c, String c EmptyString) :: (b, run) :: rest
      | [] => [(is_separator c, String c EmptyString)]
      end
  end.

(** ["".join(parts)] *)
Definition join_all (parts : list string) : string := fold_right append "" parts.

Definition render_run (r : bool * string) : string :=
  if fst r then "-" else Py.lower (snd r).

Definition normalizeName_spec (name : string) : string :=
  join_all (map render_run (runs name)).

(** The runs without the run of separators they may start with. *)
Definition skip_separators (rs : list (bool * string)) : list (bool * string) :=
  match rs with
  | (true, _) :: rest => rest
  | _ => rs
  end.

(** Every separator of [s] is a dash, and none follows another dash;
    [after_dash] tells that a dash stands right before [s]. *)
Fixpoint single_dashes (after_dash : bool) (s : string) : bool :=
  match s with
  | EmptyString => true
  | String c r =>
      if is_separator c
      then Ascii.eqb c "-" && negb after_dash && single_dashes true r
      else single_dashes false r
  end.

Definition collapsed (s : string) : bool := single_dashes false s.

(** A component of a wheel file name: not empty, and free of the dash that
    separates components, of the slash and of the newline. *)
Fixpoint component_chars (s : string) : bool :=
  match s with
  | EmptyString => true
  | String c r =>
      negb (Ascii.eqb c "-") && negb (Ascii.eqb c "/") && Py.is_dot c
      && component_chars r
  end.

Definition is_component (s : string) : bool := Py.truthy s && component_chars s.

(** A version or build component: it starts with a digit. *)
Definition is_numbered (s : string) : bool :=
  match s with
  | String c _ => Py.is_digit c && is_component s
  | EmptyString => false
  end.



(** The archive suffixes of [_archive_suffix_rx] that are fixed texts. *)
Definition archive_suffixes : list string :=
  [".zip"; ".tar.gz"; ".tgz"; ".tar.bz2"; ".egg"].

Definition starts_digit (s : string) : bool :=
  match s with
  | String d _ => Py.is_digit d
  | EmptyString => false
  end.

(** Every dash of [s] is followed by a digit. *)
Fixpoint dashes_numbered (s : string) : bool :=
  match s with
  | EmptyString => true
  | String c r =>
      (if Ascii.eqb c "-" then starts_digit r else true) && dashes_numbered r
  end.

(** The state of the scan of [component_split_from] after one character. *)
Definition scan_step (st : scan_state) (c : ascii) : scan_state :=
  if Py.is_digit c then
    match st with
    | DigitRun t => DigitRun (Py.snoc t c)
    | _ => DigitRun (String c "")
    end
  else if Py.is_alpha c then
    match st with
    | LetterRun t => LetterRun (Py.snoc t c)
    | _ => LetterRun (String c "")
    end
  else if Ascii.eqb c "." || Ascii.eqb c "-" then Gap ""
  else
    match st with
    | Gap g => Gap (Py.snoc g c)
    | _ => Gap (Py.snoc "" c)
    end.

(** The state of the scan at the end of [s]. *)
Fixpoint scan_end (st : scan_state) (s : string) : scan_state :=
  match s with
  | EmptyString => st
  | String c r => scan_end (scan_step st c) r
  end.

(** A character that starts or is a match of [component_re]. *)
Definition token_char (c : ascii) : bool :=
  Py.is_digit c || Py.is_alpha c || Ascii.eqb c "." || Ascii.eqb c "-".

(** The character goes on with the run the scan is in. *)
Definition continues (st : scan_state) (c : ascii) : bool :=
  match st with
  | Gap _ => negb (token_char c)
  | DigitRun _ => Py.is_digit c
  | LetterRun _ => Py.is_alpha c
  end.

(** The last character of [s], if any, satisfies [p]. *)
Fixpoint last_is (p : ascii -> bool) (s : string) : bool :=
  match s with
  | EmptyString => false
  | String c EmptyString => p c
  | String _ r => last_is p r
  end.

Definition starts_alpha (s : string) : bool :=
  match s with
  | String c _ => Py.is_alpha c
  | EmptyString => false
  end.

Fixpoint all_alpha (s : string) : bool :=
  match s with
  | EmptyString => true
  | String c r => Py.is_alpha c && all_alpha r
  end.


(** The number a run of digits writes. *)
Fixpoint digits_value (s : string) : N :=
  match s with
  | EmptyString => 0
  | String c r =>
      ((Py.code c - 48) * 10 ^ N.of_nat (String.length r) + digits_value r)%N
  end.

Definition is_letter_run (st : scan_state) : bool :=
  match st with LetterRun _ => true | _ => false end.

Definition is_digit_run (st : scan_state) : bool :=
  match st with DigitRun _ => true | _ => false end.

(** What [component_split_from] gives after the run of letters, or of
    digits, it is in, for a text that does not go on with the run. *)
Definition pieces_after_letters (r : string) : list string :=
  tl (component_split_from (LetterRun "") r).

Definition pieces_after_digits (r : string) : list string :=
  tl (component_split_from (DigitRun "") r).

(** Every character of [s] satisfies [p]. *)
Fixpoint all_chars (p : ascii -> bool) (s : string) : bool :=
  match s with
  | EmptyString => true
  | String c r => p c && all_chars p r
  end.

(** A character that is a letter or a digit of ASCII, or one of the marks a
    quoted text may hold. *)
Definition url_char (c : ascii) : bool :=
  Py.is_alpha c || Py.is_digit c || Py.mem_char c "_.-~/%".

(** A character of a plain package name: an ASCII letter or digit, or a
    separator. *)
Definition name_char (c : ascii) : bool :=
  Py.is_alpha c || Py.is_digit c || is_separator c.

(** ** Sample data *)

Definition sample_foo : PkgFile :=
  PkgFile_init "Foo" "1.0" (Some "/srv/foo-1.0.zip") (Some "/srv")
    (Some "foo-1.0.zip") None.

Definition sample_foo_bar : PkgFile :=
  PkgFile_init "foo.bar" "2.0" (Some "/srv/foo.bar-2.0.zip") (Some "/srv")
    (Some "foo.bar-2.0.zip") None.

(** A file system in which every file has the digest [d]. *)
Definition sample_digest (d : string) : option string -> string -> option string :=
  fun _ _ => Some d.

(** A small tree: two archives and some notes at the top, a hidden
    directory, a sub-directory with an archive and a hidden file. *)
Definition sample_tree : list entry :=
  [ File "pkgA-1.0.tar.gz" true;
    File "notes.txt" true;
    Dir ".hidden" [File "pkgB-2.0.tar.gz" true];
    Dir "sub" [File "pkgC-0.3.zip" true; File ".pkgD-1.0.zip" true] ].

(** The record the scan of "/srv" makes for "sub/pkgC-0.3.zip". *)
Definition sample_pkgC : PkgFile :=
  PkgFile_init "pkgC" "0.3" (Some "/srv/sub/pkgC-0.3.zip") (Some "/srv")
    (Some "sub/pkgC-0.3.zip") None.

(** * Properties *)

(** Splits a boolean conjunction that holds into its parts. *)
Ltac split_andb H := repeat (apply andb_true_iff in H as [H ?]).

(** Decides the side of every conditional of the goal. *)
Ltac case_ifs :=
  repeat match goal with
         | |- context [if ?b then _ else _] => destruct b
         end.

(** ** Strings *)

Lemma append_nil_r (s : string) : s ++ "" = s.
Proof. induction s as [|c s IH]; simpl; [reflexivity | now rewrite IH]. Qed.

Lemma append_assoc (a b c : string) : (a ++ b) ++ c = a ++ (b ++ c).
Proof. induction a as [|x a IH]; simpl; [reflexivity | now rewrite IH]. Qed.

Lemma length_append (a b : string) :
  String.length (a ++ b) = String.length a + String.length b.
Proof. induction a as [|x a IH]; simpl; [reflexivity | now rewrite IH]. Qed.

Lemma lower_append (a b : string) : Py.lower (a ++ b) = Py.lower a ++ Py.lower b.
Proof. induction a as [|x a IH]; simpl; [reflexivity | now rewrite IH]. Qed.

(** ** Version keys *)

(** A dot closes whatever the scan is in, and is dropped as a match of its
    own; the scan starts afresh after it. *)
Lemma component_split_dot (st : scan_state) (s rest : string) :
  component_split_from st (s ++ String "." rest)
  = (component_split_from st s ++ "." :: component_split_from (Gap "") rest)%list.
Proof.
  revert st; induction s as [|c s IH]; intros st.
  - destruct st; reflexivity.
  - destruct st; cbn [append component_split_from]; case_ifs;
      cbn [app]; rewrite ?IH; reflexivity.
Qed.

Lemma mem_digits_is_digit (c : ascii) :
  Py.mem_char c "0123456789" = Py.is_digit c.
Proof. destruct c as [[] [] [] [] [] [] [] []]; reflexivity. Qed.

Lemma alpha_not_digit (c : ascii) : Py.is_alpha c = true -> Py.is_digit c = false.
Proof. destruct c as [[] [] [] [] [] [] [] []]; cbv; congruence. Qed.

Lemma sentinel_below_digit (d : ascii) :
  Py.is_digit d = true -> Ascii.compare "*" d = Lt.
Proof. destruct d as [[] [] [] [] [] [] [] []]; cbv; congruence. Qed.

Lemma all_digits_snoc (t : string) (c : ascii) :
  all_digits (Py.snoc t c) = all_digits t && Py.is_digit c.
Proof.
  unfold Py.snoc; induction t as [|d t IH]; simpl.
  - now rewrite andb_true_r.
  - now rewrite IH, andb_assoc.
Qed.

Lemma nondigit_start_snoc (g : string) (c : ascii) :
  nondigit_start g = true -> Py.is_digit c = false ->
  nondigit_start (Py.snoc g c) = true.
Proof. destruct g; simpl; intros H Hc; [now rewrite Hc | exact H]. Qed.

Lemma component_split_pieces (s : string) :
  forall st, state_ok st = true ->
             forallb piece_ok (component_split_from st s) = true.
Proof.
  induction s as [|c s IH]; intros st Hst.
  - destruct st; simpl in *; unfold piece_ok; rewrite Hst;
      rewrite ?orb_true_r; reflexivity.
  - assert (Hletter : Py.is_alpha c = true -> Py.is_digit c = false)
      by apply alpha_not_digit.
    destruct st as [g|t|t]; cbn [component_split_from];
      destruct (Py.is_digit c) eqn:Hd;
      try destruct (Py.is_alpha c) eqn:Ha;
      try destruct (Ascii.eqb c "." || Ascii.eqb c "-") eqn:Hp;
      cbn [forallb]; simpl in Hst;
      repeat (apply andb_true_intro; split);
      try (apply IH; simpl);
      try (unfold piece_ok; simpl);
      rewrite ?all_digits_snoc, ?Hst, ?Hd, ?orb_true_r;
      try reflexivity;
      try (apply nondigit_start_snoc; [exact Hst | ]);
      try exact Hd; try (apply Hletter; reflexivity);
      try discriminate (Hletter eq_refl).
Qed.

Lemma all_digits_replace (p : string) :
  all_digits p = true -> replace p = p.
Proof.
  intros H; unfold replace.
  repeat match goal with
         | |- context [(p =? ?lit)%string] =>
             destruct (String.eqb_spec p lit) as [->|_]; [discriminate H|]
         end.
  reflexivity.
Qed.

Lemma nondigit_start_replace (p : string) :
  nondigit_start p = true -> nondigit_start (replace p) = true.
Proof.
  intros H; unfold replace.
  repeat match goal with
         | |- context [(p =? ?lit)%string] =>
             destruct (String.eqb_spec p lit) as [->|_]; [reflexivity|]
         end.
  exact H.
Qed.

Lemma all_digits_append (a b : string) :
  all_digits (a ++ b) = all_digits a && all_digits b.
Proof.
  induction a as [|c a IH]; simpl; [reflexivity | now rewrite IH, andb_assoc].
Qed.

Lemma all_digits_zeros (n : nat) : all_digits (Py.zeros n) = true.
Proof. induction n; simpl; [reflexivity | exact IHn]. Qed.

Lemma length_zeros (n : nat) : String.length (Py.zeros n) = n.
Proof. induction n; simpl; [reflexivity | now rewrite IHn]. Qed.

Lemma zfill_digits (p : string) :
  p <> "" -> all_digits p = true -> is_numeric (Py.zfill 8 p) = true.
Proof.
  intros Hne Hp. destruct p as [|c p]; [congruence|].
  unfold Py.zfill.
  assert (Hsign : Py.mem_char c "+-" = false).
  { simpl in Hp. apply andb_true_iff in Hp as [Hc _].
    destruct c as [[] [] [] [] [] [] [] []]; try reflexivity; discriminate Hc. }
  rewrite Hsign. unfold is_numeric.
  rewrite all_digits_append, all_digits_zeros, Hp, length_append, length_zeros.
  apply Nat.leb_le. lia.
Qed.

(** What one piece of the split yields is numeric or carries the sentinel. *)
Lemma version_part_tokens (p t : string) :
  piece_ok p = true -> In t (version_part p) ->
  is_sentinel t = true \/ is_numeric t = true.
Proof.
  unfold version_part, piece_ok. intros Hp Hin.
  destruct ((replace p =? "") || (replace p =? ".")) eqn:Hskip; [destruct Hin|].
  destruct (starts_with_digit (replace p)) eqn:Hsd.
  - destruct Hin as [<-|[]]. right.
    apply orb_true_iff in Hp as [Hp|Hp].
    + rewrite (all_digits_replace p Hp) in *.
      apply zfill_digits; [|exact Hp].
      intros ->. discriminate Hskip.
    + apply nondigit_start_replace in Hp.
      destruct (replace p) as [|c r]; [discriminate Hskip|].
      unfold starts_with_digit in Hsd. simpl in Hp.
      rewrite mem_digits_is_digit in Hsd.
      now rewrite Hsd in Hp.
  - destruct Hin as [<-|[]]. left. reflexivity.
Qed.

Lemma parse_version_parts_tokens (s t : string) :
  In t (_parse_version_parts s) -> is_sentinel t = true \/ is_numeric t = true.
Proof.
  unfold _parse_version_parts. intros Hin.
  apply in_app_or in Hin as [Hin|[<-|[]]]; [|now left].
  apply in_flat_map in Hin as [p [Hp Ht]].
  apply version_part_tokens with p; [|exact Ht].
  pose proof (component_split_pieces s (Gap "") eq_refl) as Hall.
  rewrite forallb_forall in Hall. now apply Hall.
Qed.

Lemma pop_zeros_incl (t : string) (r : list string) :
  In t (pop_zeros r) -> In t r.
Proof.
  induction r as [|p r IH]; simpl; [tauto|].
  destruct (p =? "00000000"); [right; now apply IH | tauto].
Qed.

Lemma fold_push_incl (t : string) (l acc : list string) :
  In t (fold_left push_part l acc) -> In t l \/ In t acc.
Proof.
  revert acc; induction l as [|p l IH]; intros acc; simpl; [tauto|].
  intros H. apply IH in H as [H|H]; [tauto|].
  unfold push_part in H. destruct H as [H|H]; [tauto|].
  destruct (Py.startswith p "*"); [apply pop_zeros_incl in H|]; tauto.
Qed.

Lemma parse_version_tokens (s t : string) :
  In t (parse_version s) -> is_sentinel t = true \/ is_numeric t = true.
Proof.
  unfold parse_version. rewrite <- in_rev. intros H.
  apply fold_push_incl in H as [H|[]].
  now apply parse_version_parts_tokens with (Py.lower s).
Qed.

Lemma sentinel_lt_numeric (t1 t2 : string) :
  is_sentinel t1 = true -> is_numeric t2 = true ->
  Py.str_lt t1 t2 = true /\ Py.str_lt t2 t1 = false.
Proof.
  unfold is_sentinel, is_numeric, Py.str_lt, String.ltb.
  intros H1 H2.
  destruct t1 as [|a r1]; [discriminate H1|].
  cbn [Py.startswith] in H1. rewrite andb_true_r in H1.
  apply Ascii.eqb_eq in H1 as <-.
  destruct t2 as [|d r2]; [discriminate H2|].
  apply andb_true_iff in H2 as [H2 _]. simpl in H2.
  apply andb_true_iff in H2 as [Hd _].
  pose proof (sentinel_below_digit d Hd) as Hlt.
  cbn [String.compare]. rewrite Hlt.
  rewrite Ascii.compare_antisym, Hlt. split; reflexivity.
Qed.

(** C1: on the examples of the specification the keys are ordered as
    releases are: "1.0rc1" before "1.0" before "1.0.post1", and "1.0" before
    "1.0.1" before "1.1", under the comparison of tuples of strings. *)
Theorem version_key_order_examples :
  Py.tuple_lt (parse_version "1.0rc1") (parse_version "1.0") = true
  /\ Py.tuple_lt (parse_version "1.0") (parse_version "1.0.post1") = true
  /\ Py.tuple_lt (parse_version "1.0") (parse_version "1.0.1") = true
  /\ Py.tuple_lt (parse_version "1.0.1") (parse_version "1.1") = true.
Proof. repeat split; vm_compute; reflexivity. Qed.

(** C2, as stated, fails: at position 1 of the keys of "1.0" and "1.0.1"
    stand the sentinel token "*final" and the numeric token "00000000", and
    the numeric one is not the smaller. *)
Lemma sentinel_after_numeric_refuted :
  ~ (forall s1 s2 i t1 t2,
        nth_error (parse_version s1) i = Some t1 ->
        nth_error (parse_version s2) i = Some t2 ->
        is_sentinel t1 = true -> is_numeric t2 = true ->
        Py.str_lt t2 t1 = true).
Proof.
  intros H.
  specialize (H "1.0" "1.0.1" 1 "*final" "00000000"
                eq_refl eq_refl eq_refl eq_refl).
  discriminate H.
Qed.

(** C2, amended: every token of a key is numeric (digits, zero-padded to at
    least eight) or carries the sentinel prefix, and a token with the
    sentinel sorts before every numeric token. *)
Theorem sentinel_before_numeric :
  forall s1 s2 i t1 t2,
    nth_error (parse_version s1) i = Some t1 ->
    nth_error (parse_version s2) i = Some t2 ->
    (is_sentinel t1 = true \/ is_numeric t1 = true)
    /\ (is_sentinel t1 = true -> is_numeric t2 = true ->
        Py.str_lt t1 t2 = true /\ Py.str_lt t2 t1 = false).
Proof.
  intros s1 s2 i t1 t2 H1 _. split.
  - apply parse_version_tokens with s1. eapply nth_error_In; eassumption.
  - apply sentinel_lt_numeric.
Qed.

Lemma sentinel_before_numeric_witness :
  (is_sentinel "*final" = true \/ is_numeric "*final" = true)
  /\ (is_sentinel "*final" = true -> is_numeric "00000000" = true ->
      Py.str_lt "*final" "00000000" = true
      /\ Py.str_lt "00000000" "*final" = false).
Proof.
  apply (sentinel_before_numeric "1.0" "1.0.1" 1 "*final" "00000000");
    reflexivity.
Defined.

Lemma parse_version_parts_dot_zero (s : string) :
  _parse_version_parts (s ++ ".0")
  = (flat_map version_part (component_split s) ++ ["00000000"; "*final"])%list.
Proof.
  unfold _parse_version_parts, component_split.
  rewrite component_split_dot, flat_map_app.
  cbn [flat_map component_split_from]. simpl.
  now rewrite <- app_assoc.
Qed.

(** A trailing ".0" leaves the key as it is: the zero it adds is popped when
    the terminal sentinel is appended. *)
Lemma parse_version_dot_zero (s : string) :
  parse_version (s ++ ".0") = parse_version s.
Proof.
  unfold parse_version.
  rewrite lower_append. change (Py.lower ".0") with ".0".
  rewrite parse_version_parts_dot_zero. unfold _parse_version_parts.
  rewrite !fold_left_app. reflexivity.
Qed.

Lemma parse_version_dot_zeros (s : string) (n : nat) :
  parse_version (s ++ repeat_string ".0" n) = parse_version s.
Proof.
  revert s; induction n as [|n IH]; intros s; cbn [repeat_string].
  - now rewrite append_nil_r.
  - rewrite <- append_assoc, IH. apply parse_version_dot_zero.
Qed.

Lemma adjacent_cons (P : string -> string -> bool) (x y : string) (r : list string) :
  adjacent P (x :: y :: r) = P x y || adjacent P (y :: r).
Proof. reflexivity. Qed.

Lemma adjacent_snoc (P : string -> string -> bool) (l : list string) (a : string) :
  adjacent P (l ++ [a])
  = adjacent P l || match l with [] => false | _ :: _ => P (last l "") a end.
Proof.
  induction l as [|x [|y l] IH].
  - reflexivity.
  - simpl. now rewrite orb_false_r.
  - change (adjacent P ((x :: y :: l) ++ [a]))
      with (P x y || adjacent P ((y :: l) ++ [a])).
    rewrite IH. change (adjacent P (x :: y :: l)) with (P x y || adjacent P (y :: l)).
    change (last (x :: y :: l) "") with (last (y :: l) "").
    now rewrite orb_assoc.
Qed.

Lemma adjacent_rev (P : string -> string -> bool) (l : list string) :
  adjacent P (rev l) = adjacent (fun x y => P y x) l.
Proof.
  induction l as [|x l IH]; [reflexivity|].
  cbn [rev]. rewrite adjacent_snoc, IH.
  destruct l as [|y l]; [reflexivity|].
  cbn [rev]. rewrite last_last.
  destruct (rev l ++ [y])%list eqn:E.
  - now destruct (rev l).
  - cbn [adjacent]. apply orb_comm.
Qed.

Lemma pop_zeros_head (r : list string) :
  match pop_zeros r with
  | p :: _ => (p =? "00000000") = false
  | [] => True
  end.
Proof.
  induction r as [|p r IH]; simpl; [exact I|].
  destruct (p =? "00000000") eqn:E; [exact IH | exact E].
Qed.

Lemma pop_zeros_adjacent (P : string -> string -> bool) (r : list string) :
  adjacent P r = false -> adjacent P (pop_zeros r) = false.
Proof.
  induction r as [|p r IH]; simpl; [reflexivity|].
  destruct (p =? "00000000"); [|tauto].
  destruct r as [|q r]; [reflexivity|].
  intros H. apply orb_false_iff in H as [_ H]. now apply IH.
Qed.

Lemma fold_push_no_sentinel_on_zero (l acc : list string) :
  adjacent (fun x y => (y =? "00000000") && is_sentinel x) acc = false ->
  adjacent (fun x y => (y =? "00000000") && is_sentinel x)
           (fold_left push_part l acc) = false.
Proof.
  revert acc; induction l as [|p l IH]; intros acc Hacc; [exact Hacc|].
  cbn [fold_left]. apply IH. unfold push_part.
  fold (is_sentinel p). destruct (is_sentinel p) eqn:Hp.
  - pose proof (pop_zeros_head acc) as Hh.
    pose proof (pop_zeros_adjacent _ acc Hacc) as Ha.
    destruct (pop_zeros acc) as [|q r]; [reflexivity|].
    rewrite adjacent_cons. now rewrite Hh, Ha.
  - destruct acc as [|q r]; [reflexivity|].
    rewrite adjacent_cons. now rewrite Hp, andb_false_r, Hacc.
Qed.

(** C3: "1.0" and "1.0.0" have the same key; appending a token with the
    sentinel first pops the zero tokens that end the key so far, so that no
    key has a zero token right before a sentinel token and any number of
    trailing ".0" segments leaves the key of a version unchanged; the key of
    "1.0.dev1" differs from the key of "1.0" and sorts before it. *)
Theorem trailing_zero_segments_dropped :
  parse_version "1.0" = parse_version "1.0.0"
  /\ (forall s, zero_before_sentinel (parse_version s) = false)
  /\ (forall s n, parse_version (s ++ repeat_string ".0" n) = parse_version s)
  /\ parse_version "1.0.dev1" <> parse_version "1.0"
  /\ Py.tuple_lt (parse_version "1.0.dev1") (parse_version "1.0") = true.
Proof.
  split; [reflexivity|].
  split.
  { intros s. unfold zero_before_sentinel, parse_version.
    rewrite adjacent_rev. now apply fold_push_no_sentinel_on_zero. }
  split; [apply parse_version_dot_zeros|].
  split; [discriminate | reflexivity].
Qed.

(** ** Name normalisation *)

Lemma lower_char_idem (c : ascii) : Py.lower_char (Py.lower_char c) = Py.lower_char c.
Proof. destruct c as [[] [] [] [] [] [] [] []]; reflexivity. Qed.

Lemma is_separator_lower (c : ascii) : is_separator (Py.lower_char c) = is_separator c.
Proof. destruct c as [[] [] [] [] [] [] [] []]; reflexivity. Qed.

Lemma lower_idem (s : string) : Py.lower (Py.lower s) = Py.lower s.
Proof.
  induction s as [|c s IH]; simpl; [reflexivity|].
  now rewrite lower_char_idem, IH.
Qed.

Lemma sub_separators_lower (b : bool) (s : string) :
  sub_separators b (Py.lower s) = Py.lower (sub_separators b s).
Proof.
  revert b; induction s as [|c s IH]; intros b; simpl; [reflexivity|].
  rewrite is_separator_lower.
  destruct (is_separator c), b; simpl; now rewrite IH.
Qed.

Lemma sub_separators_idem (s : string) :
  (forall b, sub_separators false (sub_separators b s) = sub_separators b s)
  /\ sub_separators true (sub_separators true s) = sub_separators true s.
Proof.
  induction s as [|c s [IH1 IH2]]; [split; [intros b|]; reflexivity|].
  split; [intros b|]; cbn [sub_separators];
    destruct (is_separator c) eqn:Hc.
  - destruct b; [apply IH1|].
    cbn [sub_separators]. change (is_separator "-") with true.
    cbv iota. now rewrite IH2.
  - cbn [sub_separators]. now rewrite Hc, IH1.
  - exact IH2.
  - cbn [sub_separators]. now rewrite Hc, IH1.
Qed.

Lemma sub_separators_single_dashes (s : string) :
  single_dashes false (sub_separators false s) = true
  /\ (forall d, single_dashes d (sub_separators true s) = true).
Proof.
  induction s as [|c s [IH1 IH2]]; [split; [|intros d]; reflexivity|].
  split; [|intros d]; cbn [sub_separators];
    destruct (is_separator c) eqn:Hc.
  - cbn [single_dashes]. change (is_separator "-") with true.
    cbv iota. now rewrite IH2.
  - cbn [single_dashes]. now rewrite Hc.
  - apply IH2.
  - cbn [single_dashes]. now rewrite Hc.
Qed.

Lemma normalize_runs (s : string) :
  Py.lower (sub_separators false s) = join_all (map render_run (runs s))
  /\ Py.lower (sub_separators true s)
     = join_all (map render_run (skip_separators (runs s))).
Proof.
  induction s as [|c s [IH1 IH2]]; [split; reflexivity|].
  cbn [sub_separators runs].
  destruct (is_separator c) eqn:Hc; destruct (runs s) as [|[[] run] rest];
    cbn [Bool.eqb skip_separators map join_all fold_right render_run fst snd
         Py.lower append] in *;
    rewrite ?IH1, ?IH2; split; reflexivity.
Qed.

(** C5: the normaliser is a total function; normalising twice is normalising
    once; the result is lowercase (lowercasing leaves it as it is), each
    maximal run of '-', '_', '.' of the name has become one dash (the result
    is the name cut into its runs, separator runs replaced by a dash and the
    others lowercased) and no other separator is left; "Foo_Bar.Baz" and
    "foo-bar-baz" both normalise to "foo-bar-baz". *)
Theorem normalize_pkgname_idempotent :
  (forall s, normalize_pkgname (normalize_pkgname s) = normalize_pkgname s)
  /\ (forall s, Py.lower (normalize_pkgname s) = normalize_pkgname s)
  /\ (forall s, normalize_pkgname s = normalizeName_spec s)
  /\ (forall s, collapsed (normalize_pkgname s) = true)
  /\ normalize_pkgname "Foo_Bar.Baz" = "foo-bar-baz"
  /\ normalize_pkgname "foo-bar-baz" = "foo-bar-baz".
Proof.
  unfold normalize_pkgname, normalizeName_spec, collapsed.
  repeat split.
  - intros s. rewrite sub_separators_lower, lower_idem.
    now rewrite (proj1 (sub_separators_idem s)).
  - intros s. apply lower_idem.
  - intros s. apply normalize_runs.
  - intros s. rewrite <- sub_separators_lower.
    apply sub_separators_single_dashes.
Qed.

(** ** The package filter *)

Lemma truthy_normalize (name : string) :
  Py.truthy (normalize_pkgname name) = Py.truthy name.
Proof.
  unfold normalize_pkgname. destruct name as [|c r]; [reflexivity|].
  cbn [sub_separators]. destruct (is_separator c); reflexivity.
Qed.

(** The filter compares with the normalised form of what it is given. *)
Lemma find_packages_normalizes (pkgs : list PkgFile) (name : string) :
  name <> "" ->
  find_packages pkgs name
  = filter (fun x => pkgname_norm x =? normalize_pkgname name) pkgs.
Proof.
  intros Hne. unfold find_packages.
  rewrite truthy_normalize.
  destruct name as [|c r]; [congruence|]. cbn [Py.truthy andb].
  apply filter_ext. intros x. apply negb_involutive.
Qed.

(** C8: given a non-empty normalised name, the filter yields the records
    whose normalised name is equal to it, in their order, and no other (the
    name is compared as a whole, not as a prefix); given the empty name it
    yields every record. *)
Theorem find_packages_exact_name (pkgs : list PkgFile) (name : string) :
  name <> "" ->
  normalize_pkgname name = name ->
  find_packages pkgs name = filter (fun x => pkgname_norm x =? name) pkgs
  /\ find_packages pkgs "" = pkgs.
Proof.
  intros Hne Hnorm. split.
  - rewrite find_packages_normalizes by exact Hne. now rewrite Hnorm.
  - unfold find_packages. cbn [normalize_pkgname sub_separators Py.lower Py.truthy andb negb].
    induction pkgs as [|x l IH]; [reflexivity|].
    cbn [filter]. now rewrite IH.
Qed.

Lemma find_packages_exact_name_witness :
  find_packages [sample_foo; sample_foo_bar; sample_foo] "foo"
  = filter (fun x => pkgname_norm x =? "foo") [sample_foo; sample_foo_bar; sample_foo]
  /\ find_packages [sample_foo; sample_foo_bar; sample_foo] ""
     = [sample_foo; sample_foo_bar; sample_foo].
Proof.
  apply (find_packages_exact_name [sample_foo; sample_foo_bar; sample_foo] "foo");
    [discriminate | reflexivity].
Defined.

(** ** The memo of the hash fragment *)

(** C9: once a call of [fname_and_hash] has returned a value, the record
    holds that value, and every later call, whatever algorithm it names and
    whatever the files have become, returns the same value and leaves the
    record as it is. *)
Theorem fname_and_hash_memoized
    (digest1 digest2 : option string -> string -> option string)
    (self self' : PkgFile) (algo1 algo2 : string) (v : option string) :
  fname_and_hash digest1 self algo1 = Some (v, self') ->
  _fname_and_hash self' = Some v
  /\ fname_and_hash digest2 self' algo2 = Some (v, self').
Proof.
  unfold fname_and_hash. intros H.
  assert (Hmemo : _fname_and_hash self' = Some v).
  { destruct (_fname_and_hash self) as [memo|] eqn:E.
    - injection H as <- <-. exact E.
    - destruct (Py.truthy algo1).
      + destruct (digest1 (fn self) algo1); [|discriminate H].
        injection H as <- <-. reflexivity.
      + injection H as <- <-. reflexivity. }
  split; [exact Hmemo|]. now rewrite Hmemo.
Qed.

Lemma fname_and_hash_memoized_witness :
  _fname_and_hash (set_fname_and_hash sample_foo (Some "foo-1.0.zip#md5=0a1b"))
  = Some (Some "foo-1.0.zip#md5=0a1b")
  /\ fname_and_hash (sample_digest "ffff")
       (set_fname_and_hash sample_foo (Some "foo-1.0.zip#md5=0a1b")) "sha256"
     = Some (Some "foo-1.0.zip#md5=0a1b",
             set_fname_and_hash sample_foo (Some "foo-1.0.zip#md5=0a1b")).
Proof.
  apply (fname_and_hash_memoized (sample_digest "0a1b") (sample_digest "ffff")
           sample_foo
           (set_fname_and_hash sample_foo (Some "foo-1.0.zip#md5=0a1b"))
           "md5" "sha256" (Some "foo-1.0.zip#md5=0a1b")).
  reflexivity.
Defined.

(** ** Matchers *)

Lemma count_char_append (c : ascii) (a b : string) :
  Py.count_char c (a ++ b) = Py.count_char c a + Py.count_char c b.
Proof.
  induction a as [|x a IH]; cbn [append Py.count_char]; [reflexivity|].
  rewrite IH. lia.
Qed.

Lemma component_chars_append (a b : string) :
  component_chars (a ++ b) = component_chars a && component_chars b.
Proof.
  induction a as [|x a IH]; cbn [append component_chars andb]; [reflexivity|].
  now rewrite IH, !andb_assoc.
Qed.

Lemma component_chars_no_dash (s : string) :
  component_chars s = true -> Py.count_char "-" s = 0.
Proof.
  induction s as [|c s IH]; cbn [component_chars Py.count_char]; [reflexivity|].
  intros H. split_andb H.
  rewrite Ascii.eqb_sym. apply negb_true_iff in H. rewrite H. now apply IH.
Qed.

(** What a literal matches is the literal. *)
Lemma lit_inv {R : Type} (l s : string) (k : string -> option R) (r : R) :
  Re.lit false l k s = Some r -> exists rest, s = l ++ rest /\ k rest = Some r.
Proof.
  revert s; induction l as [|a l IH]; intros s H.
  - exists s. split; [reflexivity | exact H].
  - destruct s as [|c s]; [discriminate H|]. cbn [Re.lit] in H.
    destruct (Ascii.eqb a c) eqn:E; [|discriminate H].
    apply Ascii.eqb_eq in E as <-.
    apply IH in H as [rest [-> H]]. now exists rest.
Qed.

Lemma lit_hit {R : Type} (l rest : string) (k : string -> option R) :
  Re.lit false l k (l ++ rest) = k rest.
Proof.
  induction l as [|a l IH]; [reflexivity|].
  cbn [append Re.lit]. now rewrite Ascii.eqb_refl.
Qed.

(** A match of a lazy star splits the text into the run and what the
    continuation accepted. *)
Lemma lazy_star_inv {R : Type} (p : ascii -> bool) (s : string)
    (k : string -> string -> option R) (r : R) :
  Re.lazy_star p k s = Some r ->
  exists t rest, s = t ++ rest /\ k t rest = Some r.
Proof.
  revert k; induction s as [|c s IH]; intros k H; cbn [Re.lazy_star] in H.
  - destruct (k "" "") eqn:E; [|discriminate H].
    exists "", "". split; [reflexivity | congruence].
  - destruct (k "" (String c s)) eqn:E.
    + exists "", (String c s). split; [reflexivity | congruence].
    + destruct (p c); [|discriminate H].
      apply IH in H as [t [rest [-> H]]].
      now exists (String c t), rest.
Qed.

Lemma lazy_plus_inv {R : Type} (p : ascii -> bool) (s : string)
    (k : string -> string -> option R) (r : R) :
  Re.lazy_plus p k s = Some r ->
  exists t rest, s = t ++ rest /\ k t rest = Some r.
Proof.
  unfold Re.lazy_plus, Re.char. intros H.
  destruct s as [|c s]; [discriminate H|].
  destruct (p c); [|discriminate H].
  apply lazy_star_inv in H as [t [rest [-> H]]].
  now exists (String c t), rest.
Qed.

(** The lazy star stops at the first split the continuation accepts: when
    the continuation refuses every shorter run, the run is [pre]. *)
Lemma lazy_star_hit {R : Type} (pre rest : string)
    (k : string -> string -> option R) (r : R) :
  component_chars pre = true ->
  (forall p1 c p2, pre = p1 ++ String c p2 -> k p1 (String c p2 ++ rest) = None) ->
  k pre rest = Some r ->
  Re.lazy_star Py.is_dot k (pre ++ rest) = Some r.
Proof.
  revert k; induction pre as [|c pre IH]; intros k Hc Hfail Hhit.
  - cbn [append]. destruct rest; cbn [Re.lazy_star]; now rewrite Hhit.
  - cbn [append Re.lazy_star].
    pose proof (Hfail "" c pre eq_refl) as Hnow.
    cbn [append] in Hnow. rewrite Hnow.
    cbn [component_chars] in Hc.
    split_andb Hc.
    replace (Py.is_dot c) with true by (symmetry; assumption).
    apply IH; [assumption | | exact Hhit].
    intros p1 d p2 ->. apply (Hfail (String c p1) d p2 eq_refl).
Qed.

(** The character after a proper prefix of a component is no dash. *)
Lemma component_chars_split (p1 p2 : string) (c : ascii) :
  component_chars (p1 ++ String c p2) = true -> Ascii.eqb "-" c = false.
Proof.
  rewrite component_chars_append. cbn [component_chars].
  intros H. apply andb_true_iff in H as [_ H].
  repeat (apply andb_true_iff in H as [H _]).
  rewrite Ascii.eqb_sym. now apply negb_true_iff.
Qed.

(** A continuation that starts with a dash: the run is the whole component. *)
Lemma lazy_star_component {R : Type} (pre rest : string)
    (k : string -> string -> option R) (r : R) :
  component_chars pre = true ->
  (forall t c s, Ascii.eqb "-" c = false -> k t (String c s) = None) ->
  k pre rest = Some r ->
  Re.lazy_star Py.is_dot k (pre ++ rest) = Some r.
Proof.
  intros Hc Hfail Hhit. apply lazy_star_hit; [exact Hc | | exact Hhit].
  intros p1 c p2 ->. apply Hfail. now apply component_chars_split in Hc.
Qed.

Lemma lazy_plus_component {R : Type} (pre rest : string)
    (k : string -> string -> option R) (r : R) :
  is_component pre = true ->
  (forall t c s, Ascii.eqb "-" c = false -> k t (String c s) = None) ->
  k pre rest = Some r ->
  Re.lazy_plus Py.is_dot k (pre ++ rest) = Some r.
Proof.
  unfold is_component. intros Hc Hfail Hhit.
  destruct pre as [|c pre]; [discriminate Hc|].
  cbn [Py.truthy andb component_chars] in Hc.
  unfold Re.lazy_plus, Re.char. cbn [append].
  split_andb Hc.
  replace (Py.is_dot c) with true by (symmetry; assumption).
  apply lazy_star_component; [assumption | | exact Hhit].
  intros t d s Hd. now apply Hfail.
Qed.

(** A continuation with one possible result: the star gives it as soon as
    some split is accepted. *)
Lemma lazy_star_const {R : Type} (pre rest : string)
    (k : string -> string -> option R) (r : R) :
  component_chars pre = true ->
  (forall t s x, k t s = Some x -> x = r) ->
  k pre rest = Some r ->
  Re.lazy_star Py.is_dot k (pre ++ rest) = Some r.
Proof.
  revert k; induction pre as [|c pre IH]; intros k Hc Hconst Hhit.
  - cbn [append]. destruct rest; cbn [Re.lazy_star]; now rewrite Hhit.
  - cbn [append Re.lazy_star].
    destruct (k "" (String c (pre ++ rest))) as [x|] eqn:E.
    + f_equal. now apply Hconst in E.
    + cbn [component_chars] in Hc.
      split_andb Hc.
      replace (Py.is_dot c) with true by (symmetry; assumption).
      apply IH; [assumption | | exact Hhit].
      intros t s x. apply Hconst.
Qed.

Lemma lazy_plus_const {R : Type} (pre rest : string)
    (k : string -> string -> option R) (r : R) :
  is_component pre = true ->
  (forall t s x, k t s = Some x -> x = r) ->
  k pre rest = Some r ->
  Re.lazy_plus Py.is_dot k (pre ++ rest) = Some r.
Proof.
  unfold is_component. intros Hc Hconst Hhit.
  destruct pre as [|c pre]; [discriminate Hc|].
  cbn [Py.truthy andb component_chars] in Hc.
  unfold Re.lazy_plus, Re.char. cbn [append].
  split_andb Hc.
  replace (Py.is_dot c) with true by (symmetry; assumption).
  apply lazy_star_const; [assumption | | exact Hhit].
  intros t s x. apply Hconst.
Qed.

Lemma lit_dash_fails {R : Type} (k : string -> option R) (c : ascii) (s : string) :
  Ascii.eqb "-" c = false -> Re.lit false "-" k (String c s) = None.
Proof. intros H. cbn [Re.lit]. now rewrite H. Qed.

Lemma at_end_inv {R : Type} (k : string -> option R) (s : string) (r : R) :
  Re.at_end k s = Some r -> s = "" \/ s = Re.newline.
Proof.
  unfold Re.at_end. intros H.
  destruct (String.eqb_spec s ""); [now left|].
  destruct (String.eqb_spec s Re.newline); [now right | discriminate H].
Qed.

(** ** The wheel grammar *)

Lemma is_component_chars (s : string) :
  is_component s = true -> component_chars s = true.
Proof. unfold is_component. intros H. now apply andb_true_iff in H. Qed.

Lemma is_component_no_dash (s : string) :
  is_component s = true -> Py.count_char "-" s = 0.
Proof. intros H. now apply component_chars_no_dash, is_component_chars. Qed.

Lemma wheel_tags_hit {R : Type} (r : R) (py abi plat : string) :
  is_component py = true -> is_component abi = true -> is_component plat = true ->
  wheel_tags r ("-" ++ py ++ "-" ++ abi ++ "-" ++ plat ++ ".whl") = Some r.
Proof.
  intros Hpy Habi Hplat. unfold wheel_tags.
  rewrite lit_hit.
  apply lazy_plus_component;
    [exact Hpy | intros; now apply lit_dash_fails |].
  rewrite lit_hit.
  apply lazy_plus_component;
    [exact Habi | intros; now apply lit_dash_fails |].
  rewrite lit_hit.
  apply lazy_plus_const; [exact Hplat | | reflexivity].
  intros t s x H. apply lit_inv in H as [rest [_ H]].
  unfold Re.at_end in H.
  destruct ((rest =? "") || (rest =? Re.newline)); congruence.
Qed.

(** The three tags take three dashes. *)
Lemma wheel_tags_dashes {R : Type} (r x : R) (s : string) :
  wheel_tags r s = Some x -> 3 <= Py.count_char "-" s.
Proof.
  unfold wheel_tags. intros H.
  apply lit_inv in H as [s1 [-> H]].
  apply lazy_plus_inv in H as [t1 [s2 [-> H]]].
  apply lit_inv in H as [s3 [-> H]].
  apply lazy_plus_inv in H as [t2 [s4 [-> H]]].
  apply lit_inv in H as [s5 [-> _]].
  rewrite !count_char_append. cbn [Py.count_char Ascii.eqb Bool.eqb]. lia.
Qed.

(** With three dashes in all there is no room for a build tag. *)
Lemma build_branch_fails {R : Type} (g : ascii -> string -> R) (s : string) :
  Py.count_char "-" s <= 3 ->
  Re.lit false "-"
    (Re.char Py.is_digit (fun b =>
       Re.lazy_star Py.is_dot (fun bs => wheel_tags (g b bs)))) s = None.
Proof.
  intros Hn.
  destruct (Re.lit false "-" _ s) as [x|] eqn:E; [exfalso | reflexivity].
  apply lit_inv in E as [s1 [-> E]].
  unfold Re.char in E. destruct s1 as [|b s1]; [discriminate E|].
  destruct (Py.is_digit b); [|discriminate E].
  apply lazy_star_inv in E as [t [s2 [-> E]]].
  apply wheel_tags_dashes in E.
  change ("-" ++ String b (t ++ s2)) with ("-" ++ (String b t ++ s2)) in Hn.
  rewrite !count_char_append in Hn. cbn [Py.count_char Ascii.eqb Bool.eqb] in Hn.
  lia.
Qed.

Lemma dist_info_fails {R : Type} (k : string -> option R) (s : string) :
  2 <= Py.count_char "-" s ->
  Re.lit false ".dist-info" (Re.at_end k) s = None.
Proof.
  intros Hn.
  destruct (Re.lit false ".dist-info" _ s) as [x|] eqn:E; [exfalso | reflexivity].
  apply lit_inv in E as [rest [-> E]].
  apply at_end_inv in E as [->| ->]; vm_compute in Hn; lia.
Qed.

Lemma tags_text_dashes (py abi plat : string) :
  is_component py = true -> is_component abi = true -> is_component plat = true ->
  Py.count_char "-" ("-" ++ py ++ "-" ++ abi ++ "-" ++ plat ++ ".whl") = 3.
Proof.
  intros Hpy Habi Hplat.
  rewrite !count_char_append.
  rewrite (is_component_no_dash py), (is_component_no_dash abi),
    (is_component_no_dash plat) by assumption.
  reflexivity.
Qed.

Lemma is_numbered_inv (s : string) :
  is_numbered s = true ->
  exists d v, s = String d v /\ Py.is_digit d = true
              /\ component_chars v = true /\ is_component s = true.
Proof.
  destruct s as [|d v]; [discriminate|]. cbn [is_numbered].
  intros H. apply andb_true_iff in H as [Hd Hc].
  exists d, v. repeat split; try assumption.
  apply is_component_chars in Hc. cbn [component_chars] in Hc.
  now apply andb_true_iff in Hc as [_ Hc].
Qed.

(** The match of a five-component wheel name: no build tag. *)
Lemma wheel_file_re_plain (name ver py abi plat : string) :
  is_component name = true -> is_numbered ver = true ->
  is_component py = true -> is_component abi = true -> is_component plat = true ->
  wheel_file_re (name ++ "-" ++ ver ++ "-" ++ py ++ "-" ++ abi ++ "-" ++ plat ++ ".whl")
  = Some {| wheel_name := name; wheel_ver := ver; wheel_build := None |}.
Proof.
  intros Hname Hver Hpy Habi Hplat. unfold wheel_file_re.
  apply is_numbered_inv in Hver as [d [v [-> [Hd [Hv _]]]]].
  pose proof (tags_text_dashes py abi plat Hpy Habi Hplat) as Hdash.
  pose proof (fun R (r : R) => wheel_tags_hit r py abi plat Hpy Habi Hplat) as Htags.
  apply lazy_plus_component;
    [exact Hname | intros; now apply lit_dash_fails |].
  rewrite lit_hit. cbn [append Re.char] in *. rewrite Hd.
  apply lazy_star_hit; [exact Hv | |].
  - intros p1 c p2 ->. apply component_chars_split in Hv.
    cbn [append]. unfold Re.alt, wheel_tags.
    rewrite !(lit_dash_fails _ c) by exact Hv.
    apply dist_info_fails.
    cbn [Py.count_char]. rewrite count_char_append, Hdash. lia.
  - unfold Re.alt. rewrite build_branch_fails by (rewrite Hdash; lia).
    now rewrite Htags.
Qed.

(** The match of a six-component wheel name: the third one is the build tag. *)
Lemma wheel_file_re_build (name ver build py abi plat : string) :
  is_component name = true -> is_numbered ver = true -> is_numbered build = true ->
  is_component py = true -> is_component abi = true -> is_component plat = true ->
  wheel_file_re (name ++ "-" ++ ver ++ "-" ++ build
                 ++ "-" ++ py ++ "-" ++ abi ++ "-" ++ plat ++ ".whl")
  = Some {| wheel_name := name; wheel_ver := ver; wheel_build := Some build |}.
Proof.
  intros Hname Hver Hbuild Hpy Habi Hplat. unfold wheel_file_re.
  apply is_numbered_inv in Hver as [d [v [-> [Hd [Hv _]]]]].
  apply is_numbered_inv in Hbuild as [b [bs [-> [Hb [Hbs Hbc]]]]].
  pose proof (tags_text_dashes py abi plat Hpy Habi Hplat) as Hdash.
  pose proof (fun R (r : R) => wheel_tags_hit r py abi plat Hpy Habi Hplat) as Htags.
  apply lazy_plus_component;
    [exact Hname | intros; now apply lit_dash_fails |].
  rewrite lit_hit. cbn [append Re.char] in *. rewrite Hd.
  apply lazy_star_hit; [exact Hv | |].
  - intros p1 c p2 ->. apply component_chars_split in Hv.
    cbn [append]. unfold Re.alt, wheel_tags.
    rewrite !(lit_dash_fails _ c) by exact Hv.
    apply dist_info_fails.
    cbn [Py.count_char]. rewrite count_char_append.
    cbn [Py.count_char]. rewrite count_char_append, Hdash. lia.
  - unfold Re.alt. cbn [Re.lit Re.char]. rewrite Ascii.eqb_refl, Hb.
    rewrite (lazy_star_component bs _ _
               {| wheel_name := name; wheel_ver := String d v;
                  wheel_build := Some (String b bs) |});
      [reflexivity | exact Hbs | | now apply Htags].
    intros t c s Hc. unfold wheel_tags. now apply lit_dash_fails.
Qed.

(** ** File names *)

Lemma contains_slash_cons (c : ascii) (s : string) :
  Py.contains (String c s) "/" = Ascii.eqb "/" c || Py.contains s "/".
Proof.
  cbn [Py.contains Py.startswith]. rewrite andb_true_r.
  now destruct (Ascii.eqb "/" c).
Qed.

Lemma contains_slash_append (a b : string) :
  Py.contains (a ++ b) "/" = Py.contains a "/" || Py.contains b "/".
Proof.
  induction a as [|c a IH]; [reflexivity|].
  cbn [append]. now rewrite !contains_slash_cons, IH, orb_assoc.
Qed.

Lemma component_chars_no_slash (s : string) :
  component_chars s = true -> Py.contains s "/" = false.
Proof.
  induction s as [|c s IH]; [reflexivity|].
  cbn [component_chars]. intros H.
  split_andb H.
  rewrite contains_slash_cons, IH by assumption.
  rewrite Ascii.eqb_sym.
  match goal with Hs : negb (Ascii.eqb c "/") = true |- _ =>
    apply negb_true_iff in Hs; now rewrite Hs end.
Qed.

Lemma basename_no_slash (s : string) :
  Py.contains s "/" = false -> basename s = s.
Proof.
  destruct s as [|c s]; [reflexivity|].
  rewrite contains_slash_cons. intros H.
  apply orb_false_iff in H as [Hc Hs].
  cbn [basename]. rewrite Hs, Ascii.eqb_sym, Hc. reflexivity.
Qed.

(** The base name of a path is found before a tail without slash. *)
Lemma basename_append (a t : string) :
  Py.contains t "/" = false -> basename (a ++ t) = basename a ++ t.
Proof.
  intros Ht. induction a as [|c a IH].
  - now apply basename_no_slash.
  - cbn [append basename].
    rewrite contains_slash_append, Ht, orb_false_r.
    destruct (Py.contains a "/"); [exact IH|].
    now destruct (Ascii.eqb c "/").
Qed.

Lemma endswith_append (a suf : string) : Py.endswith (a ++ suf) suf = true.
Proof.
  induction a as [|c a IH].
  - cbn [append]. destruct suf; cbn [Py.endswith]; now rewrite String.eqb_refl.
  - cbn [append Py.endswith]. rewrite IH.
    now destruct (String c (a ++ suf) =? suf).
Qed.

Lemma endswith_inv (s suf : string) :
  Py.endswith s suf = true -> exists a, s = a ++ suf.
Proof.
  induction s as [|c s IH]; cbn [Py.endswith].
  - destruct (String.eqb_spec "" suf) as [<-|]; [|discriminate].
    now exists "".
  - destruct (String.eqb_spec (String c s) suf) as [<-|].
    + now exists "".
    + intros H. apply IH in H as [a ->]. now exists (String c a).
Qed.

(** Two suffixes of one length, one text: no text ends with both. *)
Lemma endswith_other (a suf other : string) :
  String.length other = String.length suf -> other <> suf ->
  Py.endswith (a ++ suf) other = false.
Proof.
  intros Hlen Hne. induction a as [|c a IH].
  - cbn [append].
    destruct (Py.endswith suf other) eqn:E; [exfalso | reflexivity].
    apply endswith_inv in E as [x E].
    destruct x as [|y x]; [now apply Hne|].
    apply (f_equal String.length) in E.
    rewrite length_append in E. cbn [String.length] in E. lia.
  - cbn [append Py.endswith]. rewrite IH.
    destruct (String.eqb_spec (String c (a ++ suf)) other) as [E|]; [exfalso | reflexivity].
    apply (f_equal String.length) in E.
    cbn [String.length] in E. rewrite length_append in E. lia.
Qed.

(** The guesser on a name that ends with ".whl": the wheel branch, on the
    base name. *)
Lemma guess_whl (a : string) :
  guess_pkgname_and_version (a ++ ".whl")
  = _guess_pkgname_and_version_wheel (basename a ++ ".whl").
Proof.
  unfold guess_pkgname_and_version, strip_signature.
  rewrite basename_append by reflexivity.
  rewrite (endswith_other (basename a) ".whl" ".asc") by (reflexivity || discriminate).
  unfold guess_stripped. now rewrite endswith_append.
Qed.

Lemma wheel_tags_result {R : Type} (r x : R) (s : string) :
  wheel_tags r s = Some x -> x = r.
Proof.
  unfold wheel_tags. intros H.
  apply lit_inv in H as [s1 [-> H]].
  apply lazy_plus_inv in H as [t1 [s2 [-> H]]].
  apply lit_inv in H as [s3 [-> H]].
  apply lazy_plus_inv in H as [t2 [s4 [-> H]]].
  apply lit_inv in H as [s5 [-> H]].
  apply lazy_plus_inv in H as [t3 [s6 [-> H]]].
  apply lit_inv in H as [s7 [-> H]].
  unfold Re.at_end in H.
  destruct ((s7 =? "") || (s7 =? Re.newline)); congruence.
Qed.

(** A build tag that the pattern captures is not empty. *)
Lemma wheel_file_re_build_truthy (s : string) (m : wheel_groups) :
  wheel_file_re s = Some m ->
  match wheel_build m with
  | Some build => Py.truthy build = true
  | None => True
  end.
Proof.
  unfold wheel_file_re. intros H.
  apply lazy_plus_inv in H as [name [s1 [-> H]]].
  apply lit_inv in H as [s2 [-> H]].
  unfold Re.char in H. destruct s2 as [|d s2]; [discriminate H|].
  destruct (Py.is_digit d); [|discriminate H].
  apply lazy_star_inv in H as [v [s3 [-> H]]].
  unfold Re.alt in H.
  match type of H with
  | context [Re.lit false "-" ?k s3] =>
      destruct (Re.lit false "-" k s3) as [x|] eqn:EB
  end.
  - injection H as <-.
    apply lit_inv in EB as [s4 [-> EB]].
    destruct s4 as [|b s4]; [discriminate EB|].
    destruct (Py.is_digit b); [|discriminate EB].
    apply lazy_star_inv in EB as [bs [s5 [-> EB]]].
    apply wheel_tags_result in EB as ->. reflexivity.
  - match type of H with
    | context [wheel_tags ?r s3] =>
        destruct (wheel_tags r s3) as [x|] eqn:ET
    end.
    + injection H as <-. apply wheel_tags_result in ET as ->. exact I.
    + apply lit_inv in H as [s4 [-> H]].
      unfold Re.at_end in H.
      destruct ((s4 =? "") || (s4 =? Re.newline)); [|discriminate H].
      injection H as <-. exact I.
Qed.

(** Whatever the pattern matches, the guess for a name that ends with ".whl"
    is made of its groups: name and version, the build tag added to the
    version when there is one. *)
Lemma guess_wheel_groups (path : string) (m : wheel_groups) :
  Py.endswith path ".whl" = true ->
  wheel_file_re (basename path) = Some m ->
  guess_pkgname_and_version path
  = Pair (wheel_name m)
         (match wheel_build m with
          | Some build => wheel_ver m ++ "-" ++ build
          | None => wheel_ver m
          end).
Proof.
  intros Hwhl Hm. apply endswith_inv in Hwhl as [a ->].
  rewrite basename_append in Hm by reflexivity.
  rewrite guess_whl. unfold _guess_pkgname_and_version_wheel. rewrite Hm.
  pose proof (wheel_file_re_build_truthy _ _ Hm) as Hb.
  destruct (wheel_build m) as [build|]; [now rewrite Hb | reflexivity].
Qed.

Lemma guess_wheel_plain (name ver py abi plat : string) :
  is_component name = true -> is_numbered ver = true ->
  is_component py = true -> is_component abi = true -> is_component plat = true ->
  guess_pkgname_and_version
    (name ++ "-" ++ ver ++ "-" ++ py ++ "-" ++ abi ++ "-" ++ plat ++ ".whl")
  = Pair name ver.
Proof.
  intros Hname Hver Hpy Habi Hplat.
  pose proof (is_component_chars _ Hname) as Cname.
  pose proof (is_component_chars _ Hpy) as Cpy.
  pose proof (is_component_chars _ Habi) as Cabi.
  pose proof (is_component_chars _ Hplat) as Cplat.
  destruct (is_numbered_inv _ Hver) as [d [v [Ev [_ [_ Hverc]]]]].
  pose proof (is_component_chars _ Hverc) as Cver.
  replace (name ++ "-" ++ ver ++ "-" ++ py ++ "-" ++ abi ++ "-" ++ plat ++ ".whl")
    with ((name ++ "-" ++ ver ++ "-" ++ py ++ "-" ++ abi ++ "-" ++ plat) ++ ".whl")
    by (now rewrite !append_assoc).
  rewrite guess_whl, basename_no_slash.
  - rewrite !append_assoc. unfold _guess_pkgname_and_version_wheel.
    now rewrite wheel_file_re_plain.
  - rewrite !contains_slash_append.
    rewrite (component_chars_no_slash name), (component_chars_no_slash ver),
      (component_chars_no_slash py), (component_chars_no_slash abi),
      (component_chars_no_slash plat) by assumption.
    reflexivity.
Qed.

Lemma guess_wheel_build (name ver build py abi plat : string) :
  is_component name = true -> is_numbered ver = true -> is_numbered build = true ->
  is_component py = true -> is_component abi = true -> is_component plat = true ->
  guess_pkgname_and_version
    (name ++ "-" ++ ver ++ "-" ++ build
     ++ "-" ++ py ++ "-" ++ abi ++ "-" ++ plat ++ ".whl")
  = Pair name (ver ++ "-" ++ build).
Proof.
  intros Hname Hver Hbuild Hpy Habi Hplat.
  pose proof (is_component_chars _ Hname) as Cname.
  pose proof (is_component_chars _ Hpy) as Cpy.
  pose proof (is_component_chars _ Habi) as Cabi.
  pose proof (is_component_chars _ Hplat) as Cplat.
  destruct (is_numbered_inv _ Hver) as [d [v [Ev [_ [_ Hverc]]]]].
  destruct (is_numbered_inv _ Hbuild) as [b [bs [Eb [_ [_ Hbuildc]]]]].
  pose proof (is_component_chars _ Hverc) as Cver.
  pose proof (is_component_chars _ Hbuildc) as Cbuild.
  replace (name ++ "-" ++ ver ++ "-" ++ build
           ++ "-" ++ py ++ "-" ++ abi ++ "-" ++ plat ++ ".whl")
    with ((name ++ "-" ++ ver ++ "-" ++ build
           ++ "-" ++ py ++ "-" ++ abi ++ "-" ++ plat) ++ ".whl")
    by (now rewrite !append_assoc).
  rewrite guess_whl, basename_no_slash.
  - rewrite !append_assoc. unfold _guess_pkgname_and_version_wheel.
    rewrite wheel_file_re_build by assumption.
    cbn [wheel_build wheel_name wheel_ver]. now rewrite Eb.
  - rewrite !contains_slash_append.
    rewrite (component_chars_no_slash name), (component_chars_no_slash ver),
      (component_chars_no_slash build), (component_chars_no_slash py),
      (component_chars_no_slash abi), (component_chars_no_slash plat)
      by assumption.
    reflexivity.
Qed.

(** C6: a file name made of a name, a version, an optional build tag and
    the three tags, joined by dashes and ending with ".whl" (each component
    not empty and without dash, slash or newline, version and build tag
    starting with a digit) is guessed as (name, version) without build tag
    and as (name, version-build) with one; so for
    "sampleproject-1.2.0-1-py3-none-any.whl". *)
Theorem guess_wheel_grammar (name ver py abi plat : string) (build : option string) :
  is_component name = true -> is_numbered ver = true ->
  match build with Some b => is_numbered b = true | None => True end ->
  is_component py = true -> is_component abi = true -> is_component plat = true ->
  guess_pkgname_and_version
    (name ++ "-" ++ ver
     ++ match build with Some b => "-" ++ b | None => "" end
     ++ "-" ++ py ++ "-" ++ abi ++ "-" ++ plat ++ ".whl")
  = Pair name (match build with Some b => ver ++ "-" ++ b | None => ver end)
  /\ guess_pkgname_and_version "sampleproject-1.2.0-1-py3-none-any.whl"
     = Pair "sampleproject" "1.2.0-1".
Proof.
  intros Hname Hver Hbuild Hpy Habi Hplat. split; [|reflexivity].
  destruct build as [b|].
  - rewrite (append_assoc "-" b). now apply guess_wheel_build.
  - now apply guess_wheel_plain.
Qed.

Lemma guess_wheel_grammar_witness :
  guess_pkgname_and_version
    ("sampleproject" ++ "-" ++ "1.2.0" ++ ("-" ++ "1")
     ++ "-" ++ "py3" ++ "-" ++ "none" ++ "-" ++ "any" ++ ".whl")
  = Pair "sampleproject" ("1.2.0" ++ "-" ++ "1")
  /\ guess_pkgname_and_version "sampleproject-1.2.0-1-py3-none-any.whl"
     = Pair "sampleproject" "1.2.0-1".
Proof.
  apply (guess_wheel_grammar "sampleproject" "1.2.0" "py3" "none" "any" (Some "1"));
    first [reflexivity | exact I].
Defined.

(** ** The outcomes without a match *)

(** C10: a file name that ends with ".whl" and that the wheel pattern does
    not match is guessed as the pair (None, None), a file name that is no
    wheel and has no archive suffix as bare None; the pair is true where
    bare None is false, so that the scan, which goes on for any true result,
    still has to test the name of the pair, and yields nothing for it. *)
Theorem guess_no_match_outcomes (wheel other : string) :
  Py.endswith wheel ".whl" = true ->
  wheel_file_re (basename wheel) = None ->
  Py.endswith (strip_signature other) ".whl" = false ->
  Re.search _archive_suffix_rx (strip_signature other) = None ->
  guess_pkgname_and_version wheel = NonePair
  /\ guess_pkgname_and_version other = NoGuess
  /\ guess_truthy (guess_pkgname_and_version wheel) = true
  /\ guess_truthy (guess_pkgname_and_version other) = false
  /\ (forall root dirpath isfile,
         listdir_file root dirpath (File wheel isfile) = []).
Proof.
  intros Hwhl Hfail Hother Hnone.
  assert (Hw : guess_pkgname_and_version wheel = NonePair).
  { apply endswith_inv in Hwhl as [a ->].
    rewrite basename_append in Hfail by reflexivity.
    rewrite guess_whl. unfold _guess_pkgname_and_version_wheel.
    now rewrite Hfail. }
  assert (Ho : guess_pkgname_and_version other = NoGuess).
  { unfold guess_pkgname_and_version, guess_stripped. now rewrite Hother, Hnone. }
  rewrite Hw, Ho. repeat split.
  intros root dirpath isfile. unfold listdir_file. rewrite Hw.
  now destruct (negb (is_allowed_path wheel) || negb isfile).
Qed.

Lemma guess_no_match_outcomes_witness :
  guess_pkgname_and_version "foo.whl" = NonePair
  /\ guess_pkgname_and_version "readme.txt" = NoGuess
  /\ guess_truthy (guess_pkgname_and_version "foo.whl") = true
  /\ guess_truthy (guess_pkgname_and_version "readme.txt") = false
  /\ (forall root dirpath isfile,
         listdir_file root dirpath (File "foo.whl" isfile) = []).
Proof.
  apply (guess_no_match_outcomes "foo.whl" "readme.txt"); reflexivity.
Defined.

(** ** The signature suffix *)

Lemma rstrip_all (chars t : string) :
  (forall c, Py.mem_char c t = true -> Py.mem_char c chars = true) ->
  Py.rstrip chars t = "".
Proof.
  induction t as [|c t IH]; intros H; [reflexivity|].
  cbn [Py.rstrip]. rewrite IH.
  - rewrite H; [reflexivity|]. cbn [Py.mem_char]. now rewrite Ascii.eqb_refl.
  - intros d Hd. apply H. cbn [Py.mem_char]. rewrite Hd. apply orb_true_r.
Qed.

Lemma rstrip_append (chars b t : string) :
  (forall c, Py.mem_char c t = true -> Py.mem_char c chars = true) ->
  Py.rstrip chars (b ++ t) = Py.rstrip chars b.
Proof.
  intros H. induction b as [|c b IH].
  - now apply rstrip_all.
  - cbn [append Py.rstrip]. now rewrite IH.
Qed.

(** Where [rstrip] has nothing to take from the name under the signature
    suffix, the guess for the signature is the guess for the name. *)
Lemma guess_asc_not_overstripped (s : string) :
  Py.rstrip ".asc" (basename s) = basename s ->
  guess_pkgname_and_version (s ++ ".asc") = guess_pkgname_and_version s.
Proof.
  intros H. unfold guess_pkgname_and_version, strip_signature.
  rewrite basename_append by reflexivity.
  rewrite endswith_append, rstrip_append, H.
  - now destruct (Py.endswith (basename s) ".asc").
  - intros c Hc. exact Hc.
Qed.

(** C4 fails on the code at "foo-1.0.zip.a.asc": [rstrip(".asc")] takes
    every trailing '.', 'a', 's' and 'c', here ".a.asc", so the signature is
    guessed as foo 1.0 while the name without the four characters ".asc",
    "foo-1.0.zip.a", has no guess. *)
Theorem asc_suffix_overstripped :
  Py.endswith "foo-1.0.zip.a.asc" ".asc" = true
  /\ strip_signature "foo-1.0.zip.a.asc" = "foo-1.0.zip"
  /\ guess_pkgname_and_version "foo-1.0.zip.a.asc" = Pair "foo" "1.0"
  /\ guess_pkgname_and_version "foo-1.0.zip.a" = NoGuess.
Proof. repeat split; vm_compute; reflexivity. Qed.

(** ** The path check *)

Lemma split_on_not_nil (c : ascii) (s : string) : split_on c s <> [].
Proof.
  destruct s as [|d s]; cbn [split_on]; [discriminate|].
  destruct (Ascii.eqb d c); [discriminate|].
  destruct (split_on c s); discriminate.
Qed.

Lemma split_on_append (c : ascii) (a b : string) :
  split_on c (a ++ String c b) = (split_on c a ++ split_on c b)%list.
Proof.
  induction a as [|x a IH]; cbn [append split_on].
  - now rewrite Ascii.eqb_refl.
  - rewrite IH. destruct (Ascii.eqb x c); [reflexivity|].
    pose proof (split_on_not_nil c a) as Hne.
    destruct (split_on c a); [congruence | reflexivity].
Qed.

Lemma contains_cons (x : ascii) (s sub : string) :
  Py.contains (String x s) sub = Py.startswith (String x s) sub || Py.contains s sub.
Proof. cbn [Py.contains]. now destruct (Py.startswith (String x s) sub). Qed.

(** The first segment is hidden when the path starts with a dot, a later one
    when the path holds a dot after a slash. *)
Lemma split_on_hidden (q : string) :
  is_hidden (hd "" (split_on "/" q)) = Py.startswith q "."
  /\ forallb (fun seg => negb (is_hidden seg)) (tl (split_on "/" q))
     = negb (Py.contains q "/.").
Proof.
  induction q as [|x q [IHa IHb]]; [split; reflexivity|].
  pose proof (split_on_not_nil "/" q) as Hne.
  cbn [split_on]. rewrite contains_cons.
  destruct (Ascii.eqb_spec x "/") as [->|Hx].
  - split; [reflexivity|]. cbn [tl].
    destruct (split_on "/" q) as [|seg segs]; [congruence|].
    cbn [hd tl forallb] in *. rewrite IHa, IHb.
    cbn [Py.startswith]. rewrite Ascii.eqb_refl. cbn [andb].
    now rewrite negb_orb.
  - destruct (split_on "/" q) as [|seg segs]; [congruence|].
    cbn [hd tl] in *. split.
    + unfold is_hidden. cbn [Py.startswith]. now rewrite !andb_true_r.
    + rewrite IHb. cbn [Py.startswith].
      assert (E : Ascii.eqb "/" x = false)
        by (rewrite Ascii.eqb_sym; now apply Ascii.eqb_neq).
      now rewrite E.
Qed.

(** The check accepts a path exactly when none of its segments, cut at
    slashes and backslashes, starts with a dot. *)
Theorem is_allowed_path_segments (p : string) :
  is_allowed_path p
  = forallb (fun seg => negb (is_hidden seg)) (path_segments p).
Proof.
  unfold is_allowed_path, path_segments.
  destruct (split_on_hidden (Py.replace_char "\" "/" p)) as [Ha Hb].
  pose proof (split_on_not_nil "/" (Py.replace_char "\" "/" p)) as Hne.
  destruct (split_on "/" (Py.replace_char "\" "/" p)) as [|seg segs];
    [congruence|].
  cbn [hd tl forallb] in *. now rewrite Ha, Hb, negb_orb.
Qed.

Lemma replace_char_append (a b : ascii) (s t : string) :
  Py.replace_char a b (s ++ t) = Py.replace_char a b s ++ Py.replace_char a b t.
Proof. induction s as [|c s IH]; cbn [append Py.replace_char]; [reflexivity | now rewrite IH]. Qed.


(** ** The directory scan *)




(** Whether a text ends with a slash is seen on any non-empty tail of it. *)
Lemma endswith_slash_append (a : string) (c : ascii) (r : string) :
  Py.endswith (a ++ String c r) "/" = Py.endswith (String c r) "/".
Proof.
  induction a as [|x a IH]; [reflexivity|].
  cbn [append]. change (Py.endswith (String x (a ++ String c r)) "/")
    with (if (String x (a ++ String c r) =? "/")%string then true
          else Py.endswith (a ++ String c r) "/").
  rewrite IH. destruct (String.eqb_spec (String x (a ++ String c r)) "/") as [E|];
    [|reflexivity].
  injection E as _ E. destruct a; discriminate E.
Qed.

Lemma valid_name_inv (name : string) :
  valid_name name = true ->
  name <> "" /\ Py.startswith name "/" = false /\ Py.endswith name "/" = false.
Proof.
  unfold valid_name. intros H. apply andb_true_iff in H as [Hne Hs].
  apply negb_true_iff in Hs.
  destruct name as [|c r]; [discriminate Hne|].
  split; [discriminate|]. split.
  - rewrite contains_cons in Hs. now apply orb_false_iff in Hs as [Hs _].
  - clear Hne. revert c Hs. induction r as [|d r IH]; intros c Hs.
    + rewrite contains_cons in Hs. apply orb_false_iff in Hs as [Hs _].
      cbn [Py.startswith] in Hs. rewrite andb_true_r in Hs.
      cbn [Py.endswith]. destruct (String.eqb_spec (String c "") "/") as [E|]; [|reflexivity].
      injection E as ->. discriminate Hs.
    + rewrite contains_cons in Hs. apply orb_false_iff in Hs as [_ Hs].
      change (String c (String d r)) with (String c "" ++ String d r).
      rewrite endswith_slash_append. now apply IH.
Qed.


Section Scan.

(** The root of the scan: an absolute path that does not end with a slash,
    which is what [os.path.abspath] returns but for the root of the file
    system. *)
Variable root : string.
Hypothesis root_absolute : Py.startswith root "/" = true.
Hypothesis root_open : Py.endswith root "/" = false.








End Scan.

(** A directory that is not allowed is cut from the walk before the walk
    goes down: what it holds has no part in the result. *)
Lemma listdir_walk_prunes (root dirpath name dir : string)
    (before after sub sub' : list entry) :
  is_allowed_path dir = false ->
  listdir_walk root dirpath (Dir name (before ++ Dir dir sub :: after))
  = listdir_walk root dirpath (Dir name (before ++ Dir dir sub' :: after)).
Proof.
  intros H. cbn [listdir_walk]. rewrite !flat_map_app.
  cbn [flat_map listdir_file]. now rewrite H.
Qed.

(** C7 fails on the code when the root is the root of the file system.
    There [fn] is "/a.b-1.0.zip", [len(root) + 1] is 2 and the slice
    [fn[len(root) + 1:]] drops the first character of the name with the
    slash: the record of the visible file "a.b-1.0.zip" gets the relative
    path ".b-1.0.zip", whose one segment starts with a dot and which the
    path check refuses. *)
Theorem listdir_root_slash_relfn :
  valid_entries [File "a.b-1.0.zip" true] = true
  /\ map relfn (_listdir "/" [File "a.b-1.0.zip" true]) = [Some ".b-1.0.zip"]
  /\ path_segments ".b-1.0.zip" = [".b-1.0.zip"]
  /\ is_hidden ".b-1.0.zip" = true
  /\ is_allowed_path ".b-1.0.zip" = false.
Proof. repeat split; vm_compute; reflexivity. Qed.

(** * Further properties *)

(** ** Version keys: shape *)

Lemma fold_push_final (body acc : list string) :
  fold_left push_part (body ++ ["*final"]) acc
  = "*final" :: pop_zeros (fold_left push_part body acc).
Proof. now rewrite fold_left_app. Qed.

(** X1: every key ends with the terminal token "*final"; no key is empty. *)
Theorem parse_version_ends_with_final (s : string) :
  parse_version s = (removelast (parse_version s) ++ ["*final"])%list.
Proof.
  unfold parse_version, _parse_version_parts.
  rewrite fold_push_final. cbn [rev].
  now rewrite removelast_last.
Qed.

(** X2: the key does not depend on the case of the letters of the version. *)
Theorem parse_version_ignores_case (s : string) :
  parse_version (Py.lower s) = parse_version s.
Proof. unfold parse_version. now rewrite lower_idem. Qed.

(** ** The path check, again *)

Lemma forallb_negb {A : Type} (f : A -> bool) (l : list A) :
  forallb (fun x => negb (f x)) l = negb (existsb f l).
Proof.
  induction l as [|x l IH]; [reflexivity|].
  cbn [forallb existsb]. now rewrite IH, negb_orb.
Qed.

(** X3: the path check accepts a path exactly when none of its segments,
    cut at slashes and backslashes, starts with a dot. *)
Theorem is_allowed_path_no_hidden_segment (p : string) :
  is_allowed_path p = negb (existsb is_hidden (path_segments p)).
Proof. rewrite is_allowed_path_segments. apply forallb_negb. Qed.

Lemma path_segments_join (a b : string) (sep : ascii) :
  Py.mem_char sep "/\" = true ->
  path_segments (a ++ String sep b) = (path_segments a ++ path_segments b)%list.
Proof.
  intros Hsep. unfold path_segments.
  rewrite replace_char_append. cbn [Py.replace_char].
  replace (if Ascii.eqb sep "\" then "/"%char else sep) with "/"%char.
  - apply split_on_append.
  - cbn [Py.mem_char] in Hsep. rewrite orb_false_r in Hsep.
    destruct (Ascii.eqb sep "\"); [reflexivity|].
    rewrite orb_false_r in Hsep. now apply Ascii.eqb_eq in Hsep.
Qed.

(** X4: a path joined from two parts with a slash or a backslash is allowed
    exactly when both parts are. *)
Theorem is_allowed_path_joined (a b : string) :
  is_allowed_path (a ++ "/" ++ b) = is_allowed_path a && is_allowed_path b
  /\ is_allowed_path (a ++ "\" ++ b) = is_allowed_path a && is_allowed_path b.
Proof.
  rewrite !is_allowed_path_segments. cbn [append].
  rewrite !path_segments_join by reflexivity.
  now rewrite forallb_app.
Qed.

(** ** Queries, again *)

(** X5: given a name that is not empty, normalised or not, the filter keeps
    the records whose normalised name is the normalised form of that name,
    in their order. *)
Theorem find_packages_raw_name (pkgs : list PkgFile) (name : string) :
  name <> "" ->
  find_packages pkgs name
  = filter (fun x => pkgname_norm x =? normalize_pkgname name) pkgs.
Proof. apply find_packages_normalizes. Qed.

Lemma find_packages_raw_name_witness :
  find_packages [sample_foo; sample_foo_bar; sample_foo] "FOO"
  = filter (fun x => pkgname_norm x =? normalize_pkgname "FOO")
      [sample_foo; sample_foo_bar; sample_foo].
Proof.
  apply (find_packages_raw_name [sample_foo; sample_foo_bar; sample_foo] "FOO").
  discriminate.
Defined.

Lemma filter_idem {A : Type} (f : A -> bool) (l : list A) :
  filter f (filter f l) = filter f l.
Proof.
  induction l as [|x l IH]; [reflexivity|].
  cbn [filter]. destruct (f x) eqn:E; [|exact IH].
  cbn [filter]. now rewrite E, IH.
Qed.

(** X6: filtering what the filter gave, by the same name, changes nothing. *)
Theorem find_packages_idempotent (pkgs : list PkgFile) (name : string) :
  find_packages (find_packages pkgs name) name = find_packages pkgs name.
Proof. unfold find_packages. apply filter_idem. Qed.

Lemma get_prefixes_fold (pkgs : list PkgFile) (acc : list string) (n : string) :
  In n (fold_left (fun names x =>
                     if Py.truthy (pkgname x)
                     then set_add string_dec (pkgname_norm x) names
                     else names) pkgs acc)
  <-> In n acc
      \/ exists x, In x pkgs /\ Py.truthy (pkgname x) = true /\ pkgname_norm x = n.
Proof.
  revert acc; induction pkgs as [|p l IH]; intros acc; cbn [fold_left].
  - split; [now left | intros [H|[x [[] _]]]; exact H].
  - rewrite IH. destruct (Py.truthy (pkgname p)) eqn:Hp.
    + split.
      * intros [H|[x [Hx Hn]]].
        -- apply set_add_elim in H as [->|H]; [|now left].
           right. exists p. repeat split; [now left | exact Hp].
        -- right. exists x. split; [now right | exact Hn].
      * intros [H|[x [[<-|Hx] [Ht Hn]]]].
        -- left. now apply set_add_intro1.
        -- left. apply set_add_intro2. now symmetry.
        -- right. now exists x.
    + split.
      * intros [H|[x [Hx Hn]]]; [now left|].
        right. exists x. split; [now right | exact Hn].
      * intros [H|[x [[<-|Hx] [Ht Hn]]]]; [now left | congruence |].
        right. now exists x.
Qed.

Lemma get_prefixes_fold_nodup (pkgs : list PkgFile) (acc : list string) :
  NoDup acc ->
  NoDup (fold_left (fun names x =>
                      if Py.truthy (pkgname x)
                      then set_add string_dec (pkgname_norm x) names
                      else names) pkgs acc).
Proof.
  revert acc; induction pkgs as [|p l IH]; intros acc Hacc; [exact Hacc|].
  cbn [fold_left]. apply IH.
  destruct (Py.truthy (pkgname p)); [now apply set_add_nodup | exact Hacc].
Qed.

(** X7: the names [get_prefixes] returns are the normalised names of the
    records whose name is not empty, each of them once. *)
Theorem get_prefixes_names (pkgs : list PkgFile) (n : string) :
  (In n (get_prefixes pkgs)
   <-> exists x, In x pkgs /\ Py.truthy (pkgname x) = true /\ pkgname_norm x = n)
  /\ NoDup (get_prefixes pkgs).
Proof.
  unfold get_prefixes. split.
  - rewrite get_prefixes_fold. split; [intros [[]|H]; exact H | now right].
  - apply get_prefixes_fold_nodup. constructor.
Qed.

(** X8: the records the filter keeps for a name that is not empty have no
    other name than its normalised form. *)
Theorem get_prefixes_of_found (pkgs : list PkgFile) (name n : string) :
  name <> "" ->
  In n (get_prefixes (find_packages pkgs name)) ->
  n = normalize_pkgname name.
Proof.
  intros Hne Hin.
  unfold get_prefixes in Hin.
  apply get_prefixes_fold in Hin as [[]|[x [Hx [_ <-]]]].
  rewrite find_packages_normalizes in Hx by exact Hne.
  apply filter_In in Hx as [_ Hx]. now apply String.eqb_eq in Hx.
Qed.

Lemma get_prefixes_of_found_witness :
  "foo" = normalize_pkgname "Foo".
Proof.
  apply (get_prefixes_of_found [sample_foo; sample_foo_bar; sample_foo] "Foo" "foo").
  - discriminate.
  - vm_compute. now left.
Defined.

(** ** The directory scan, again *)




(** X10: a regular file of a directory the walk is in, with an allowed name
    that is guessed as a name that is not empty and a version, has its
    record among those of the walk. *)
Theorem listdir_indexes_file (top dirpath name x pkg ver : string)
    (entries : list entry) :
  In (File x true) entries ->
  is_allowed_path x = true ->
  guess_pkgname_and_version x = Pair pkg ver ->
  Py.truthy pkg = true ->
  In (PkgFile_init pkg ver
        (Some (path_join (path_join top dirpath) x)) (Some top)
        (Some (Py.drop (String.length top + 1)
                 (path_join (path_join top dirpath) x))) None)
     (listdir_walk top dirpath (Dir name entries)).
Proof.
  intros Hin Hx Hg Hpkg. cbn [listdir_walk].
  apply in_or_app. left. apply in_flat_map.
  exists (File x true). split; [exact Hin|].
  unfold listdir_file. rewrite Hx, Hg. cbn. rewrite Hpkg. now left.
Qed.

Lemma listdir_indexes_file_witness :
  In (PkgFile_init "pkgC" "0.3"
        (Some (path_join (path_join "/srv" "/srv/sub") "pkgC-0.3.zip")) (Some "/srv")
        (Some (Py.drop (String.length "/srv" + 1)
                 (path_join (path_join "/srv" "/srv/sub") "pkgC-0.3.zip"))) None)
     (listdir_walk "/srv" "/srv/sub"
        (Dir "sub" [File "pkgC-0.3.zip" true; File ".pkgD-1.0.zip" true])).
Proof.
  apply (listdir_indexes_file "/srv" "/srv/sub" "sub" "pkgC-0.3.zip" "pkgC" "0.3");
    first [reflexivity | now left].
Defined.

(** X11: the records of an allowed sub-directory are records of the
    directory that holds it. *)
Theorem listdir_descends (top dirpath name sub_name : string)
    (entries sub : list entry) (r : PkgFile) :
  In (Dir sub_name sub) entries ->
  is_allowed_path sub_name = true ->
  In r (listdir_walk top (path_join dirpath sub_name) (Dir sub_name sub)) ->
  In r (listdir_walk top dirpath (Dir name entries)).
Proof.
  intros Hin Hallowed Hr.
  change (listdir_walk top dirpath (Dir name entries))
    with (flat_map (listdir_file top dirpath) entries
          ++ flat_map (fun e =>
               match e with
               | File _ _ => []
               | Dir d _ =>
                   if is_allowed_path d
                   then listdir_walk top (path_join dirpath d) e
                   else []
               end) entries)%list.
  apply in_or_app. right. apply in_flat_map.
  exists (Dir sub_name sub). split; [exact Hin|]. now rewrite Hallowed.
Qed.

Lemma listdir_descends_witness :
  In sample_pkgC (listdir_walk "/srv" "/srv" (Dir "/srv" sample_tree)).
Proof.
  apply (listdir_descends "/srv" "/srv" "/srv" "sub" sample_tree
           [File "pkgC-0.3.zip" true; File ".pkgD-1.0.zip" true] sample_pkgC).
  - do 3 right. now left.
  - reflexivity.
  - vm_compute. now left.
Defined.

(** X12: what a directory with a refused name holds has no part in the
    records of a walk: the walk does not go down into it. *)
Theorem listdir_skips_refused (top dirpath name dir : string)
    (before after sub sub' : list entry) :
  is_allowed_path dir = false ->
  listdir_walk top dirpath (Dir name (before ++ Dir dir sub :: after))
  = listdir_walk top dirpath (Dir name (before ++ Dir dir sub' :: after)).
Proof. apply listdir_walk_prunes. Qed.

Lemma listdir_skips_refused_witness :
  listdir_walk "/srv" "/srv"
    (Dir "/srv" ([File "pkgA-1.0.tar.gz" true]
                 ++ Dir ".hidden" [File "pkgB-2.0.tar.gz" true] :: []))
  = listdir_walk "/srv" "/srv"
      (Dir "/srv" ([File "pkgA-1.0.tar.gz" true] ++ Dir ".hidden" [] :: [])).
Proof.
  apply (listdir_skips_refused "/srv" "/srv" "/srv" ".hidden").
  reflexivity.
Defined.



(** ** The guesser, again *)

Lemma basename_slash_end (a : string) : basename (a ++ "/") = "".
Proof.
  induction a as [|x a IH]; [reflexivity|].
  cbn [append basename]. rewrite contains_slash_append.
  change (Py.contains "/" "/") with true. now rewrite orb_true_r.
Qed.

(** X14: only the base name of a path is guessed from. *)
Theorem guess_of_base_name (dir name : string) :
  Py.contains name "/" = false ->
  guess_pkgname_and_version (dir ++ "/" ++ name) = guess_pkgname_and_version name.
Proof.
  intros Hname. unfold guess_pkgname_and_version, strip_signature.
  rewrite <- append_assoc, basename_append, basename_slash_end by exact Hname.
  now rewrite basename_no_slash.
Qed.

Lemma guess_of_base_name_witness :
  guess_pkgname_and_version ("/srv/sub" ++ "/" ++ "pkgC-0.3.zip")
  = guess_pkgname_and_version "pkgC-0.3.zip".
Proof. apply (guess_of_base_name "/srv/sub" "pkgC-0.3.zip"). reflexivity. Defined.

Lemma rstrip_keeps (chars b : string) (c : ascii) :
  Py.mem_char c chars = false ->
  Py.rstrip chars (b ++ String c "") = b ++ String c "".
Proof.
  intros Hc. induction b as [|x b IH]; cbn [append Py.rstrip].
  - now rewrite Hc.
  - rewrite IH. now destruct b.
Qed.

(** X15: the signature of a file whose name ends with a character other
    than '.', 'a', 's' and 'c' is guessed as the file itself. *)
Theorem guess_of_signature (name : string) (c : ascii) :
  Py.mem_char c ".asc" = false ->
  guess_pkgname_and_version (name ++ String c ".asc")
  = guess_pkgname_and_version (name ++ String c "").
Proof.
  intros Hc.
  change (String c ".asc") with (String c "" ++ ".asc").
  rewrite <- append_assoc. apply guess_asc_not_overstripped.
  destruct (Ascii.eqb_spec c "/") as [->|Hslash].
  - now rewrite basename_slash_end.
  - rewrite basename_append.
    + now apply rstrip_keeps.
    + cbn [Py.contains Py.startswith]. rewrite andb_true_r.
      rewrite Ascii.eqb_sym.
      apply Ascii.eqb_neq in Hslash. now rewrite Hslash.
Qed.

Lemma guess_of_signature_witness :
  guess_pkgname_and_version ("pkgA-1.0.tar.g" ++ String "z" ".asc")
  = guess_pkgname_and_version ("pkgA-1.0.tar.g" ++ String "z" "").
Proof. apply (guess_of_signature "pkgA-1.0.tar.g" "z"). reflexivity. Defined.

(** X16: a path that ends with ".whl" and whose base name the wheel pattern
    matches, in whatever way, is guessed from the groups of the match: the
    name, and the version with the build tag added when there is one. *)
Theorem guess_from_wheel_match (path : string) (m : wheel_groups) :
  Py.endswith path ".whl" = true ->
  wheel_file_re (basename path) = Some m ->
  guess_pkgname_and_version path
  = Pair (wheel_name m)
         (match wheel_build m with
          | Some build => wheel_ver m ++ "-" ++ build
          | None => wheel_ver m
          end).
Proof. apply guess_wheel_groups. Qed.

Lemma guess_from_wheel_match_witness :
  guess_pkgname_and_version "dir/my_pkg-2.0-3-cp39-cp39-linux_x86_64.whl"
  = Pair (wheel_name {| wheel_name := "my_pkg"; wheel_ver := "2.0";
                        wheel_build := Some "3" |})
         (match wheel_build {| wheel_name := "my_pkg"; wheel_ver := "2.0";
                               wheel_build := Some "3" |} with
          | Some build => wheel_ver {| wheel_name := "my_pkg"; wheel_ver := "2.0";
                                       wheel_build := Some "3" |} ++ "-" ++ build
          | None => wheel_ver {| wheel_name := "my_pkg"; wheel_ver := "2.0";
                                 wheel_build := Some "3" |}
          end).
Proof.
  apply (guess_from_wheel_match "dir/my_pkg-2.0-3-cp39-cp39-linux_x86_64.whl"
           {| wheel_name := "my_pkg"; wheel_ver := "2.0"; wheel_build := Some "3" |});
    reflexivity.
Defined.

(** ** Source archives *)

Lemma eqb_nocase_lower (a c : ascii) :
  Py.eqb_nocase a c = true -> Py.lower_char a = Py.lower_char c.
Proof. unfold Py.eqb_nocase. apply Ascii.eqb_eq. Qed.

(** What a literal matches under [re.I] is the literal but for the case. *)
Lemma lit_nocase_inv {R : Type} (l s : string) (k : string -> option R) (r : R) :
  Re.lit true l k s = Some r ->
  exists p rest, s = p ++ rest /\ Py.lower p = Py.lower l /\ k rest = Some r.
Proof.
  revert s; induction l as [|a l IH]; intros s H.
  - exists "", s. repeat split. exact H.
  - destruct s as [|c s]; [discriminate H|]. cbn [Re.lit] in H.
    destruct (Py.eqb_nocase a c) eqn:E; [|discriminate H].
    apply eqb_nocase_lower in E.
    apply IH in H as [p [rest [-> [Hp H]]]].
    exists (String c p), rest. cbn [append Py.lower].
    repeat split; [now rewrite Hp, E | exact H].
Qed.

(** A fixed suffix of the pattern does not match before the end of a name
    that ends with a fixed suffix. *)
Lemma literal_suffix_fails {R : Type} (P suffix T : string) (k : string -> option R) :
  Py.lower P = P -> Py.lower suffix = suffix -> T <> "" ->
  Py.endswith P suffix = false \/ P = suffix ->
  Py.endswith (P ++ Re.newline) suffix = false ->
  Re.lit true P (Re.at_end k) (T ++ suffix) = None.
Proof.
  intros HP Hsuf HT Hends Hnl.
  destruct (Re.lit true P (Re.at_end k) (T ++ suffix)) as [x|] eqn:E;
    [exfalso | reflexivity].
  apply lit_nocase_inv in E as [p [rest [Hs [Hp E]]]].
  apply (f_equal Py.lower) in Hs.
  rewrite !lower_append, Hp, HP, Hsuf in Hs.
  pose proof (endswith_append (Py.lower T) suffix) as Hend.
  rewrite Hs in Hend.
  apply at_end_inv in E as [->| ->].
  - cbn [Py.lower] in *. rewrite append_nil_r in Hs, Hend.
    destruct Hends as [Hends| ->]; [congruence|].
    apply (f_equal String.length) in Hs. rewrite length_append in Hs.
    destruct T; [congruence|]. cbn [Py.lower String.length] in Hs. lia.
  - change (Py.lower Re.newline) with Re.newline in Hend. congruence.
Qed.

Lemma digit_not_p (d : ascii) : Py.is_digit d = true -> Py.eqb_nocase "p" d = false.
Proof. destruct d as [[] [] [] [] [] [] [] []]; cbv; congruence. Qed.

Lemma digit_not_a (d : ascii) : Py.is_digit d = true -> Py.eqb_nocase "a" d = false.
Proof. destruct d as [[] [] [] [] [] [] [] []]; cbv; congruence. Qed.

Lemma nocase_dash (c : ascii) : Py.eqb_nocase "-" c = true -> c = "-"%char.
Proof. destruct c as [[] [] [] [] [] [] [] []]; cbv; congruence. Qed.

(** The three alternatives of the pattern with a dash in them want a letter
    after a dash. *)
Lemma dash_alternatives_fail {R : Type} (k1 k2 k3 : string -> option R) (s : string) :
  dashes_numbered s = true ->
  Re.lit true "-" (py_tag k1) s = None
  /\ Re.lit true ".win-amd64-" (py_tag k2) s = None
  /\ Re.lit true ".win32-" (py_tag k3) s = None.
Proof.
  intros H. repeat split.
  - destruct s as [|c0 [|c1 s]]; try reflexivity;
      cbn [Re.lit py_tag];
      destruct (Py.eqb_nocase "-" c0) eqn:E0; try reflexivity.
    apply nocase_dash in E0 as ->. cbn in H.
    apply andb_true_iff in H as [H _]. now rewrite digit_not_p.
  - destruct s as [|c0 [|c1 [|c2 [|c3 [|c4 [|c5 s]]]]]]; cbn [Re.lit];
      try reflexivity;
      repeat match goal with
             | |- context [if Py.eqb_nocase ?a ?c then _ else _] =>
                 destruct (Py.eqb_nocase a c) eqn:?; try reflexivity
             end.
    match goal with E : Py.eqb_nocase "-" c4 = true |- _ =>
      apply nocase_dash in E; subst c4 end.
    cbn [dashes_numbered] in H.
    do 4 (apply andb_true_iff in H as [_ H]).
    apply andb_true_iff in H as [H _]. cbn in H.
    match goal with E : Py.eqb_nocase "a" c5 = true |- _ =>
      rewrite digit_not_a in E by exact H; discriminate E end.
  - destruct s as [|c0 [|c1 [|c2 [|c3 [|c4 [|c5 [|c6 [|c7 s]]]]]]]];
      cbn [Re.lit py_tag];
      try reflexivity;
      repeat match goal with
             | |- context [if Py.eqb_nocase ?a ?c then _ else _] =>
                 destruct (Py.eqb_nocase a c) eqn:?; try reflexivity
             end.
    match goal with E : Py.eqb_nocase "-" c6 = true |- _ =>
      apply nocase_dash in E; subst c6 end.
    cbn [dashes_numbered] in H.
    do 6 (apply andb_true_iff in H as [_ H]).
    apply andb_true_iff in H as [H _]. cbn in H.
    match goal with E : Py.eqb_nocase "p" c7 = true |- _ =>
      rewrite digit_not_p in E by exact H; discriminate E end.
Qed.

Lemma dashes_numbered_tail (a s : string) :
  dashes_numbered (a ++ s) = true -> dashes_numbered s = true.
Proof.
  induction a as [|c a IH]; [trivial|].
  cbn [append dashes_numbered]. intros H.
  apply andb_true_iff in H as [_ H]. now apply IH.
Qed.

Lemma dashes_numbered_component (a s : string) :
  component_chars a = true -> dashes_numbered s = true ->
  dashes_numbered (a ++ s) = true.
Proof.
  intros Ha Hs. induction a as [|c a IH]; [exact Hs|].
  cbn [component_chars] in Ha. split_andb Ha.
  cbn [append dashes_numbered]. rewrite IH by assumption.
  apply negb_true_iff in Ha. now rewrite Ha.
Qed.

(** Before the end of a name that ends with a fixed suffix, and in which a
    digit follows every dash, the pattern matches nowhere. *)
Lemma archive_suffix_rx_fails (T suffix : string) :
  In suffix archive_suffixes -> T <> "" ->
  dashes_numbered (T ++ suffix) = true ->
  _archive_suffix_rx (T ++ suffix) = None.
Proof.
  intros Hsuf HT Hd. unfold _archive_suffix_rx, Re.alt. cbv zeta.
  destruct (dash_alternatives_fail
              (Re.lit true "-"
                 (Re.greedy_star Py.is_dot
                    (fun _ => Re.at_end (fun rest : string => Some rest))))
              (Re.lit true "."
                 (Re.greedy_star Py.is_dot
                    (fun _ => Re.at_end (fun rest : string => Some rest))))
              (Re.lit true "."
                 (Re.greedy_star Py.is_dot
                    (fun _ => Re.at_end (fun rest : string => Some rest))))
              (T ++ suffix) Hd) as [H5 [H6 H7]].
  rewrite H5, H6, H7.
  unfold archive_suffixes in Hsuf. cbn [In] in Hsuf.
  destruct Hsuf as [<-|[<-|[<-|[<-|[<-|[]]]]]];
    rewrite !literal_suffix_fails;
    first [reflexivity | exact HT | now left | now right].
Qed.

(** The search goes by every position at which the pattern fails. *)
Lemma search_from_skips {R : Type} (m : string -> option R)
    (X rest before : string) (r : R) :
  (forall p1 c p2, X = p1 ++ String c p2 -> m (String c p2 ++ rest) = None) ->
  m rest = Some r ->
  Re.search_from m before (X ++ rest) = Some (before ++ X, r).
Proof.
  revert before; induction X as [|c X IH]; intros before Hfail Hhit.
  - cbn [append]. rewrite append_nil_r.
    destruct rest; cbn [Re.search_from]; now rewrite Hhit.
  - cbn [append Re.search_from].
    pose proof (Hfail "" c X eq_refl) as Hnow. cbn [append] in Hnow.
    rewrite Hnow, IH; [|intros p1 d p2 ->; apply (Hfail (String c p1) d p2 eq_refl)
                       |exact Hhit].
    unfold Py.snoc. now rewrite append_assoc.
Qed.

Lemma archive_suffix_search (X suffix : string) :
  In suffix archive_suffixes ->
  dashes_numbered (X ++ suffix) = true ->
  Re.search _archive_suffix_rx (X ++ suffix) = Some (X, "").
Proof.
  intros Hsuf Hd. unfold Re.search.
  rewrite (search_from_skips _archive_suffix_rx X suffix "" "").
  - reflexivity.
  - intros p1 c p2 ->. apply archive_suffix_rx_fails; [exact Hsuf | discriminate |].
    rewrite append_assoc in Hd. now apply dashes_numbered_tail in Hd.
  - unfold archive_suffixes in Hsuf. cbn [In] in Hsuf.
    destruct Hsuf as [<-|[<-|[<-|[<-|[<-|[]]]]]]; reflexivity.
Qed.

(** A name that ends with a fixed archive suffix has no signature to strip
    and is no wheel. *)
Lemma archive_suffix_endswith (X suffix other : string) :
  In suffix archive_suffixes -> other = ".asc" \/ other = ".whl" ->
  Py.endswith (X ++ suffix) other = false.
Proof.
  intros Hsuf Hother. unfold archive_suffixes in Hsuf. cbn [In] in Hsuf.
  destruct Hsuf as [<-|[<-|[<-|[<-|[<-|[]]]]]].
  - destruct Hother as [-> | ->]; apply endswith_other; (reflexivity || discriminate).
  - change ".tar.gz" with (".ta" ++ "r.gz"). rewrite <- append_assoc.
    destruct Hother as [-> | ->]; apply endswith_other; (reflexivity || discriminate).
  - destruct Hother as [-> | ->]; apply endswith_other; (reflexivity || discriminate).
  - change ".tar.bz2" with (".tar" ++ ".bz2"). rewrite <- append_assoc.
    destruct Hother as [-> | ->]; apply endswith_other; (reflexivity || discriminate).
  - destruct Hother as [-> | ->]; apply endswith_other; (reflexivity || discriminate).
Qed.

Lemma archive_suffix_no_slash (suffix : string) :
  In suffix archive_suffixes -> Py.contains suffix "/" = false.
Proof.
  unfold archive_suffixes. cbn [In].
  intros [<-|[<-|[<-|[<-|[<-|[]]]]]]; reflexivity.
Qed.

Lemma archive_suffix_dashes (suffix : string) :
  In suffix archive_suffixes -> dashes_numbered suffix = true.
Proof.
  unfold archive_suffixes. cbn [In].
  intros [<-|[<-|[<-|[<-|[<-|[]]]]]]; reflexivity.
Qed.

(** The guess for a name without slash that ends with a fixed archive
    suffix and in which a digit follows every dash starts from the name
    without the suffix. *)
Lemma guess_archive (X suffix : string) :
  In suffix archive_suffixes ->
  Py.contains X "/" = false ->
  dashes_numbered (X ++ suffix) = true ->
  guess_pkgname_and_version (X ++ suffix)
  = if negb (Py.contains X "-") then Pair X ""
    else if (Py.count_char "-" X =? 1)%nat then
      let (pkgname, version) := split_first "-" X in Pair pkgname version
    else if negb (Py.contains X ".") then
      let (pkgname, version) := rsplit_last "-" X in Pair pkgname version
    else
      Pair (Re.split_head _pkgname_re X)
           (Re.split_head _pkgname_parts_re
              (Py.drop (String.length (Re.split_head _pkgname_re X) + 1) X)).
Proof.
  intros Hsuf Hslash Hd.
  unfold guess_pkgname_and_version, strip_signature.
  rewrite basename_no_slash
    by (rewrite contains_slash_append, Hslash; now apply archive_suffix_no_slash).
  rewrite (archive_suffix_endswith X suffix ".asc") by (exact Hsuf || now left).
  unfold guess_stripped.
  rewrite (archive_suffix_endswith X suffix ".whl") by (exact Hsuf || now right).
  rewrite archive_suffix_search by assumption.
  now rewrite append_nil_r.
Qed.

Lemma component_chars_no_dash_in (s : string) :
  component_chars s = true -> Py.contains s "-" = false.
Proof.
  induction s as [|c s IH]; [reflexivity|].
  cbn [component_chars]. intros H. split_andb H.
  rewrite contains_cons, IH by assumption.
  cbn [Py.startswith]. rewrite Ascii.eqb_sym.
  apply negb_true_iff in H. now rewrite H.
Qed.

Lemma contains_dash_after (a b : string) : Py.contains (a ++ "-" ++ b) "-" = true.
Proof.
  induction a as [|c a IH]; [reflexivity|].
  cbn [append]. rewrite contains_cons. cbn [append] in IH. rewrite IH.
  apply orb_true_r.
Qed.

Lemma split_first_component (a b : string) :
  component_chars a = true -> split_first "-" (a ++ "-" ++ b) = (a, b).
Proof.
  intros Ha. induction a as [|c a IH]; [reflexivity|].
  cbn [component_chars] in Ha. split_andb Ha.
  cbn [append split_first]. apply negb_true_iff in Ha. rewrite Ha.
  cbn [append] in IH. now rewrite IH.
Qed.

(** X17: a name and a version that starts with a digit, neither with a dash,
    a slash or a newline, joined by a dash and followed by ".zip",
    ".tar.gz", ".tgz", ".tar.bz2" or ".egg", are guessed as they are; the
    name alone before such a suffix is guessed with the empty version. *)
Theorem guess_source_archive (name ver suffix : string) :
  is_component name = true -> is_numbered ver = true ->
  In suffix archive_suffixes ->
  guess_pkgname_and_version (name ++ "-" ++ ver ++ suffix) = Pair name ver
  /\ guess_pkgname_and_version (name ++ suffix) = Pair name "".
Proof.
  intros Hname Hver Hsuf.
  pose proof (is_component_chars _ Hname) as Cname.
  destruct (is_numbered_inv _ Hver) as [d [v [Ev [Hd [_ Hverc]]]]].
  pose proof (is_component_chars _ Hverc) as Cver.
  pose proof (archive_suffix_dashes suffix Hsuf) as Dsuf.
  split.
  - replace (name ++ "-" ++ ver ++ suffix) with ((name ++ "-" ++ ver) ++ suffix)
      by (now rewrite !append_assoc).
    rewrite guess_archive.
    + rewrite contains_dash_after, count_char_append.
      rewrite (component_chars_no_dash name Cname).
      change (Py.count_char "-" ("-" ++ ver)) with (1 + Py.count_char "-" ver).
      rewrite (component_chars_no_dash ver Cver).
      cbn [negb Nat.add Nat.eqb].
      now rewrite split_first_component.
    + exact Hsuf.
    + rewrite !contains_slash_append.
      now rewrite (component_chars_no_slash name), (component_chars_no_slash ver).
    + rewrite !append_assoc.
      apply dashes_numbered_component; [exact Cname|].
      cbn [append dashes_numbered Ascii.eqb Bool.eqb].
      rewrite (dashes_numbered_component ver suffix Cver Dsuf).
      rewrite Ev. cbn [append starts_digit]. now rewrite Hd.
  - rewrite guess_archive.
    + now rewrite (component_chars_no_dash_in name Cname).
    + exact Hsuf.
    + now apply component_chars_no_slash.
    + now apply dashes_numbered_component.
Qed.

Lemma guess_source_archive_witness :
  guess_pkgname_and_version ("sampleproject" ++ "-" ++ "1.2.0" ++ ".tar.gz")
  = Pair "sampleproject" "1.2.0"
  /\ guess_pkgname_and_version ("sampleproject" ++ ".tar.gz")
     = Pair "sampleproject" "".
Proof.
  apply (guess_source_archive "sampleproject" "1.2.0" ".tar.gz");
    first [reflexivity | right; now left].
Defined.

(** ** Version keys: order *)

(** A character that does not go on with the run open at the end of [v]
    starts the split afresh: the pieces of [v] come first, as if [v] were
    all of the text. *)
Lemma component_split_boundary (v : string) (c : ascii) (t : string) :
  token_char c = true ->
  forall st, continues (scan_end st v) c = false ->
  component_split_from st (v ++ String c t)
  = (component_split_from st v
     ++ tl (component_split_from (Gap "") (String c t)))%list.
Proof.
  intros Hc.
  assert (Hc' : Py.is_digit c
                || (Py.is_alpha c || (Ascii.eqb c "." || Ascii.eqb c "-")) = true)
    by (unfold token_char in Hc; now rewrite <- !orb_assoc in Hc).
  clear Hc.
  induction v as [|x v IH]; intros st H.
  - cbn [append scan_end] in *.
    destruct st; cbn [continues component_split_from] in *;
      destruct (Py.is_digit c) eqn:Hd; try discriminate H;
      destruct (Py.is_alpha c) eqn:Ha; try discriminate H;
      destruct (Ascii.eqb c "." || Ascii.eqb c "-") eqn:Hp;
      try discriminate Hc'; reflexivity.
  - cbn [append scan_end] in *. unfold scan_step in H.
    destruct st; cbn [component_split_from];
      destruct (Py.is_digit x) eqn:Hd;
      try destruct (Py.is_alpha x) eqn:Ha;
      try destruct (Ascii.eqb x "." || Ascii.eqb x "-") eqn:Hp;
      try (rewrite (alpha_not_digit x Ha) in Hd; discriminate Hd);
      cbv beta iota in H; rewrite (IH _ H); reflexivity.
Qed.

Lemma is_alpha_lower (c : ascii) : Py.is_alpha (Py.lower_char c) = Py.is_alpha c.
Proof. destruct c as [[] [] [] [] [] [] [] []]; reflexivity. Qed.

Lemma is_digit_lower (c : ascii) : Py.is_digit (Py.lower_char c) = Py.is_digit c.
Proof. destruct c as [[] [] [] [] [] [] [] []]; reflexivity. Qed.

Lemma last_is_lower (p : ascii -> bool) (s : string) :
  (forall c, p (Py.lower_char c) = p c) ->
  last_is p (Py.lower s) = last_is p s.
Proof.
  intros Hp. induction s as [|c [|d s] IH]; [reflexivity | apply Hp |].
  exact IH.
Qed.

Lemma all_alpha_lower (s : string) : all_alpha (Py.lower s) = all_alpha s.
Proof.
  induction s as [|c s IH]; [reflexivity|].
  cbn [Py.lower all_alpha]. now rewrite is_alpha_lower, IH.
Qed.

Lemma all_digits_lower (s : string) : all_digits s = true -> Py.lower s = s.
Proof.
  induction s as [|c s IH]; [reflexivity|].
  cbn [all_digits Py.lower]. intros H. apply andb_true_iff in H as [Hc Hs].
  rewrite (IH Hs). f_equal.
  destruct c as [[] [] [] [] [] [] [] []]; try reflexivity; discriminate Hc.
Qed.

Lemma scan_step_letter (st : scan_state) (x : ascii) :
  is_letter_run (scan_step st x) = Py.is_alpha x.
Proof.
  unfold scan_step. destruct (Py.is_digit x) eqn:Hd.
  - destruct (Py.is_alpha x) eqn:Ha.
    + now rewrite (alpha_not_digit x Ha) in Hd.
    + now destruct st.
  - destruct (Py.is_alpha x); [now destruct st|].
    destruct (Ascii.eqb x "." || Ascii.eqb x "-"); now destruct st.
Qed.

Lemma scan_step_digit (st : scan_state) (x : ascii) :
  is_digit_run (scan_step st x) = Py.is_digit x.
Proof.
  unfold scan_step. destruct (Py.is_digit x); [now destruct st|].
  destruct (Py.is_alpha x); [now destruct st|].
  destruct (Ascii.eqb x "." || Ascii.eqb x "-"); now destruct st.
Qed.

(** The scan ends in a run of letters when the text ends with a letter. *)
Lemma scan_end_letter (v : string) :
  forall st, is_letter_run (scan_end st v)
             = match v with
               | EmptyString => is_letter_run st
               | _ => last_is Py.is_alpha v
               end.
Proof.
  induction v as [|x v IH]; intros st; [reflexivity|].
  cbn [scan_end]. rewrite IH.
  destruct v; [apply scan_step_letter | reflexivity].
Qed.

Lemma scan_end_digit (v : string) :
  forall st, is_digit_run (scan_end st v)
             = match v with
               | EmptyString => is_digit_run st
               | _ => last_is Py.is_digit v
               end.
Proof.
  induction v as [|x v IH]; intros st; [reflexivity|].
  cbn [scan_end]. rewrite IH.
  destruct v; [apply scan_step_digit | reflexivity].
Qed.

Lemma letter_run_goes_on (tag r T : string) :
  all_alpha tag = true ->
  component_split_from (LetterRun T) (tag ++ r)
  = component_split_from (LetterRun (T ++ tag)) r.
Proof.
  revert T; induction tag as [|c tag IH]; intros T H.
  - now rewrite append_nil_r.
  - cbn [all_alpha] in H. apply andb_true_iff in H as [Hc H].
    cbn [append component_split_from]. rewrite Hc, IH by exact H.
    unfold Py.snoc. now rewrite append_assoc.
Qed.

Lemma digit_run_goes_on (n r T : string) :
  all_digits n = true ->
  component_split_from (DigitRun T) (n ++ r)
  = component_split_from (DigitRun (T ++ n)) r.
Proof.
  revert T; induction n as [|c n IH]; intros T H.
  - now rewrite append_nil_r.
  - cbn [all_digits] in H. apply andb_true_iff in H as [Hc H].
    cbn [append component_split_from]. rewrite Hc, IH by exact H.
    unfold Py.snoc. now rewrite append_assoc.
Qed.

Lemma letter_run_ends (r T : string) :
  starts_alpha r = false ->
  component_split_from (LetterRun T) r = T :: pieces_after_letters r.
Proof.
  unfold pieces_after_letters. destruct r as [|c r]; [reflexivity|].
  cbn [starts_alpha component_split_from]. now intros ->.
Qed.

Lemma digit_run_ends (r T : string) :
  starts_digit r = false ->
  component_split_from (DigitRun T) r = T :: pieces_after_digits r.
Proof.
  unfold pieces_after_digits. destruct r as [|c r]; [reflexivity|].
  cbn [starts_digit component_split_from]. now intros ->.
Qed.

(** The pieces of a text, a run of letters set off from it, and more. *)
Lemma component_split_letters (v tag r : string) :
  last_is Py.is_alpha v = false -> tag <> "" -> all_alpha tag = true ->
  starts_alpha r = false ->
  component_split (v ++ tag ++ r)
  = (component_split v ++ tag :: pieces_after_letters r)%list.
Proof.
  intros Hv Hne Htag Hr. unfold component_split.
  destruct tag as [|c tag]; [congruence|].
  cbn [all_alpha] in Htag. apply andb_true_iff in Htag as [Hc Htag].
  cbn [append]. rewrite component_split_boundary.
  - cbn [component_split_from]. rewrite (alpha_not_digit c Hc), Hc. cbn [tl].
    now rewrite letter_run_goes_on, letter_run_ends.
  - unfold token_char. rewrite Hc. now rewrite orb_true_r.
  - pose proof (scan_end_letter v (Gap "")) as He.
    destruct (scan_end (Gap "") v); cbn [continues];
      [unfold token_char; rewrite Hc; now rewrite orb_true_r
      | now apply alpha_not_digit |].
    cbn [is_letter_run] in He. destruct v; [discriminate He | congruence].
Qed.

Lemma digit_token (c : ascii) : Py.is_digit c = true -> token_char c = true.
Proof. unfold token_char. now intros ->. Qed.

Lemma digit_not_alpha (c : ascii) : Py.is_digit c = true -> Py.is_alpha c = false.
Proof.
  intros H. destruct (Py.is_alpha c) eqn:Ha; [|reflexivity].
  now rewrite (alpha_not_digit c Ha) in H.
Qed.

(** The pieces of a text, a run of digits set off from it, and more. *)
Lemma component_split_digits (v n r : string) :
  last_is Py.is_digit v = false -> n <> "" -> all_digits n = true ->
  starts_digit r = false ->
  component_split (v ++ n ++ r)
  = (component_split v ++ n :: pieces_after_digits r)%list.
Proof.
  intros Hv Hne Hn Hr. unfold component_split.
  destruct n as [|c n]; [congruence|].
  cbn [all_digits] in Hn. apply andb_true_iff in Hn as [Hc Hn].
  cbn [append]. rewrite component_split_boundary.
  - cbn [component_split_from]. rewrite Hc. cbn [tl].
    now rewrite digit_run_goes_on, digit_run_ends.
  - now apply digit_token.
  - pose proof (scan_end_digit v (Gap "")) as He.
    destruct (scan_end (Gap "") v); cbn [continues];
      [rewrite digit_token by exact Hc; reflexivity | | now apply digit_not_alpha].
    cbn [is_digit_run] in He. destruct v; [discriminate He | congruence].
Qed.


(** What a run of digits yields: the run, padded. *)
Lemma version_part_digits (n : string) :
  n <> "" -> all_digits n = true -> version_part n = [Py.zfill 8 n].
Proof.
  intros Hne Hn. unfold version_part. rewrite (all_digits_replace n Hn).
  destruct n as [|c n]; [congruence|].
  cbn [all_digits] in Hn. apply andb_true_iff in Hn as [Hc _].
  assert (H1 : (String c n =? "") = false) by reflexivity.
  assert (H2 : (String c n =? ".") = false).
  { apply String.eqb_neq. intros E. injection E as -> _. discriminate Hc. }
  rewrite H1, H2. cbn [orb starts_with_digit].
  now rewrite mem_digits_is_digit, Hc.
Qed.

Lemma pop_zeros_keeps (x : string) (pre acc : list string) :
  (x =? "00000000") = false ->
  exists kept, pop_zeros (pre ++ x :: acc) = (kept ++ x :: acc)%list.
Proof.
  intros Hx. induction pre as [|p pre [kept IH]].
  - exists []. cbn [app pop_zeros]. now rewrite Hx.
  - cbn [app pop_zeros]. destruct (p =? "00000000").
    + now exists kept.
    + now exists (p :: pre).
Qed.

(** A part that is no zero token stays in the list of parts, with what is
    under it. *)
Lemma fold_push_keeps (x : string) (l acc : list string) :
  (x =? "00000000") = false ->
  exists pre, fold_left push_part l (x :: acc) = (pre ++ x :: acc)%list.
Proof.
  intros Hx.
  assert (H : forall pre : list string, exists pre' : list string,
               fold_left push_part l (pre ++ x :: acc)%list
               = (pre' ++ x :: acc)%list).
  { induction l as [|p l IH]; intros pre; [now exists pre|].
    cbn [fold_left]. unfold push_part at 2.
    destruct (Py.startswith p "*").
    - destruct (pop_zeros_keeps x pre acc Hx) as [kept ->].
      apply (IH (p :: kept)).
    - apply (IH (p :: pre)). }
  apply (H []).
Qed.

Lemma tuple_lt_prefix (p a b : list string) :
  Py.tuple_lt (p ++ a) (p ++ b) = Py.tuple_lt a b.
Proof.
  induction p as [|x p IH]; [reflexivity|].
  cbn [app Py.tuple_lt]. now rewrite String.eqb_refl.
Qed.

Lemma str_compare_refl (a : string) : String.compare a a = Eq.
Proof.
  induction a as [|c a IH]; [reflexivity|].
  cbn [String.compare]. unfold Ascii.compare. now rewrite N.compare_refl.
Qed.

Lemma str_lt_irrefl (a : string) : Py.str_lt a a = false.
Proof. unfold Py.str_lt, String.ltb. now rewrite str_compare_refl. Qed.



(** The key of a version, from the parts of its body. *)
Lemma parse_version_body (s : string) :
  parse_version s
  = (rev (pop_zeros (fold_left push_part
                       (flat_map version_part (component_split (Py.lower s))) []))
     ++ ["*final"])%list.
Proof.
  unfold parse_version, _parse_version_parts. now rewrite fold_push_final.
Qed.

(** The key of a version that goes on after [body] with a part [T] that is
    no zero token and is pushed on [under]: the key of what is under, [T],
    and more. *)
Lemma key_with_part (body rest under : list string) (T : string) :
  (T =? "00000000") = false ->
  push_part (fold_left push_part body []) T = T :: under ->
  exists more,
    more <> []
    /\ rev (fold_left push_part (body ++ T :: rest ++ ["*final"]) [])
       = (rev under ++ T :: more)%list.
Proof.
  intros HT Hpush.
  rewrite fold_left_app. cbn [fold_left]. rewrite Hpush, fold_push_final.
  destruct (fold_push_keeps T rest under HT) as [pre ->].
  destruct (pop_zeros_keeps T pre under HT) as [kept ->].
  exists (rev kept ++ ["*final"])%list. split.
  - now destruct (rev kept).
  - cbn [rev]. rewrite rev_app_distr. cbn [rev].
    now rewrite <- !app_assoc.
Qed.



(** X19: run of letters for run of letters, two versions that differ in a
    marker have one key when [replace] maps the markers, lowercased, to the
    same text; so "rc", "pre", "preview" and "c" are one marker, in any
    case of the letters. *)
Theorem marker_synonyms (v tag tag' r : string) :
  last_is Py.is_alpha v = false ->
  tag <> "" -> all_alpha tag = true ->
  tag' <> "" -> all_alpha tag' = true ->
  starts_alpha r = false ->
  replace (Py.lower tag) = replace (Py.lower tag') ->
  parse_version (v ++ tag ++ r) = parse_version (v ++ tag' ++ r).
Proof.
  intros Hv Hne Htag Hne' Htag' Hr Hsame.
  assert (Hsplit : forall t, t <> "" -> all_alpha t = true ->
            component_split (Py.lower (v ++ t ++ r))
            = (component_split (Py.lower v)
               ++ Py.lower t :: pieces_after_letters (Py.lower r))%list).
  { intros t Ht Hall. rewrite !lower_append. apply component_split_letters.
    - rewrite last_is_lower; [exact Hv | apply is_alpha_lower].
    - destruct t; [congruence | discriminate].
    - now rewrite all_alpha_lower.
    - destruct r; [reflexivity|]. cbn [Py.lower starts_alpha] in *.
      now rewrite is_alpha_lower. }
  unfold parse_version, _parse_version_parts.
  rewrite (Hsplit tag Hne Htag), (Hsplit tag' Hne' Htag'), !flat_map_app.
  cbn [flat_map]. unfold version_part at 2 5. now rewrite Hsame.
Qed.

Lemma marker_synonyms_witness :
  parse_version ("2.1" ++ "RC" ++ "3") = parse_version ("2.1" ++ "preview" ++ "3").
Proof.
  apply (marker_synonyms "2.1" "RC" "preview" "3");
    first [reflexivity | discriminate].
Defined.

Lemma pop_zeros_zeros (acc : list string) :
  exists k, acc = (repeat "00000000" k ++ pop_zeros acc)%list.
Proof.
  induction acc as [|p acc [k IH]]; [now exists 0|].
  cbn [pop_zeros]. destruct (String.eqb_spec p "00000000") as [->|_].
  - exists (S k). cbn [repeat app]. now rewrite <- IH.
  - now exists 0.
Qed.

(** X20: a version that goes on, after a text that does not end with a
    digit, with a number whose token is no zero token, whatever follows the
    number, is a later version. *)
Theorem number_makes_later_version (v n r : string) :
  last_is Py.is_digit v = false -> n <> "" -> all_digits n = true ->
  Py.zfill 8 n <> "00000000" -> starts_digit r = false ->
  Py.tuple_lt (parse_version v) (parse_version (v ++ n ++ r)) = true.
Proof.
  intros Hv Hne Hn Hzero Hr.
  assert (Hsplit : component_split (Py.lower (v ++ n ++ r))
                   = (component_split (Py.lower v)
                      ++ n :: pieces_after_digits (Py.lower r))%list).
  { rewrite !lower_append, (all_digits_lower n Hn).
    apply component_split_digits; try assumption.
    - rewrite last_is_lower; [exact Hv | apply is_digit_lower].
    - destruct r; [reflexivity|]. cbn [Py.lower starts_digit] in *.
      now rewrite is_digit_lower. }
  pose proof (zfill_digits n Hne Hn) as Hnum.
  apply String.eqb_neq in Hzero.
  unfold parse_version at 2. unfold _parse_version_parts.
  rewrite Hsplit, flat_map_app. cbn [flat_map].
  rewrite version_part_digits by assumption. cbn [app].
  rewrite <- !app_assoc. cbn [app].
  set (under := fold_left push_part
                  (flat_map version_part (component_split (Py.lower v))) []).
  destruct (key_with_part
              (flat_map version_part (component_split (Py.lower v)))
              (flat_map version_part (pieces_after_digits (Py.lower r)))
              under (Py.zfill 8 n) Hzero) as [more [_ ->]].
  { fold under. unfold push_part.
    destruct (Py.startswith (Py.zfill 8 n) "*") eqn:E; [|reflexivity].
    destruct (sentinel_lt_numeric (Py.zfill 8 n) (Py.zfill 8 n) E Hnum) as [H _].
    now rewrite str_lt_irrefl in H. }
  rewrite parse_version_body. fold under.
  destruct (pop_zeros_zeros under) as [k Hk].
  rewrite Hk at 2. rewrite rev_app_distr, <- app_assoc, tuple_lt_prefix.
  destruct k as [|k].
  - cbn [repeat rev app Py.tuple_lt].
    destruct (sentinel_lt_numeric "*final" (Py.zfill 8 n) eq_refl Hnum) as [Hlt _].
    destruct (String.eqb_spec "*final" (Py.zfill 8 n)) as [E|_]; [|exact Hlt].
    rewrite <- E in Hlt. now rewrite str_lt_irrefl in Hlt.
  - assert (Hrev : exists tail, (rev (repeat "00000000" (S k)) ++ Py.zfill 8 n :: more)%list
                                = "00000000" :: tail).
    { rewrite rev_repeat. cbn [repeat app]. now eexists. }
    destruct Hrev as [tail ->]. reflexivity.
Qed.

Lemma number_makes_later_version_witness :
  Py.tuple_lt (parse_version "1.0.") (parse_version ("1.0." ++ "1" ++ "rc2")) = true.
Proof.
  apply (number_makes_later_version "1.0." "1" "rc2");
    first [reflexivity | discriminate].
Defined.

(** ** Version keys: numbers *)

Lemma digit_code (c : ascii) :
  Py.is_digit c = true -> (48 <= Py.code c <= 57)%N.
Proof.
  unfold Py.is_digit, Py.in_range. intros H.
  apply andb_true_iff in H as [H1 H2].
  apply N.leb_le in H1, H2. now split.
Qed.

Lemma digits_value_bound (s : string) :
  all_digits s = true -> (digits_value s < 10 ^ N.of_nat (String.length s))%N.
Proof.
  induction s as [|c s IH]; [intros _; reflexivity|].
  cbn [all_digits digits_value String.length]. intros H.
  apply andb_true_iff in H as [Hc Hs].
  specialize (IH Hs). apply digit_code in Hc.
  rewrite Nat2N.inj_succ, N.pow_succ_r'.
  set (P := (10 ^ N.of_nat (String.length s))%N) in *. nia.
Qed.

(** Runs of digits of one length compare as the numbers they write. *)
Lemma digits_compare (x : string) :
  forall y, String.length x = String.length y ->
            all_digits x = true -> all_digits y = true ->
            String.compare x y = N.compare (digits_value x) (digits_value y).
Proof.
  induction x as [|c x IH]; intros [|d y] Hlen Hx Hy; try discriminate Hlen;
    [reflexivity|].
  cbn [String.length] in Hlen. injection Hlen as Hlen.
  cbn [all_digits] in Hx, Hy.
  apply andb_true_iff in Hx as [Hc Hx]. apply andb_true_iff in Hy as [Hd Hy].
  pose proof (digits_value_bound x Hx) as Bx.
  pose proof (digits_value_bound y Hy) as By.
  apply digit_code in Hc, Hd.
  cbn [String.compare digits_value]. unfold Ascii.compare.
  fold (Py.code c) (Py.code d). rewrite <- Hlen in *.
  set (P := (10 ^ N.of_nat (String.length x))%N) in *.
  destruct (N.compare_spec (Py.code c) (Py.code d)) as [E|L|G].
  - rewrite E, (IH y Hlen Hx Hy). symmetry.
    destruct (N.compare_spec (digits_value x) (digits_value y)) as [e|l|g];
      [apply N.compare_eq_iff | apply N.compare_lt_iff | apply N.compare_gt_iff];
      lia.
  - symmetry. apply N.compare_lt_iff. nia.
  - symmetry. apply N.compare_gt_iff. nia.
Qed.

Lemma digits_value_zeros (k : nat) (s : string) :
  digits_value (Py.zeros k ++ s) = digits_value s.
Proof. induction k as [|k IH]; [reflexivity|]. cbn. exact IH. Qed.

Lemma zfill_short_digits (n : string) :
  n <> "" -> all_digits n = true -> String.length n <= 8 ->
  Py.zfill 8 n = Py.zeros (8 - String.length n) ++ n
  /\ String.length (Py.zfill 8 n) = 8
  /\ all_digits (Py.zfill 8 n) = true
  /\ digits_value (Py.zfill 8 n) = digits_value n.
Proof.
  intros Hne Hn Hlen.
  pose proof (zfill_digits n Hne Hn) as Hnum.
  unfold is_numeric in Hnum. apply andb_true_iff in Hnum as [Hall _].
  assert (E : Py.zfill 8 n = Py.zeros (8 - String.length n) ++ n).
  { unfold Py.zfill. destruct n as [|c n]; [congruence|].
    cbn [all_digits] in Hn. apply andb_true_iff in Hn as [Hc _].
    replace (Py.mem_char c "+-") with false; [reflexivity|].
    destruct c as [[] [] [] [] [] [] [] []]; try reflexivity; discriminate Hc. }
  repeat split; try assumption.
  - rewrite E, length_append, length_zeros. lia.
  - rewrite E. apply digits_value_zeros.
Qed.

(** X21: the tokens of two runs of at most eight digits compare as the
    numbers the runs write: one is below the other, or equal to it, exactly
    when the numbers are.  A run of more digits is not padded and compares
    as a text, a longer number before a shorter one that starts higher. *)
Theorem numeric_tokens_compare (a b : string) :
  a <> "" -> b <> "" -> all_digits a = true -> all_digits b = true ->
  String.length a <= 8 -> String.length b <= 8 ->
  version_part a = [Py.zfill 8 a] /\ version_part b = [Py.zfill 8 b]
  /\ Py.str_lt (Py.zfill 8 a) (Py.zfill 8 b) = (digits_value a <? digits_value b)%N
  /\ (Py.zfill 8 a =? Py.zfill 8 b) = (digits_value a =? digits_value b)%N
  /\ Py.str_lt (Py.zfill 8 "100000000") (Py.zfill 8 "99999999") = true.
Proof.
  intros Ha Hb Da Db La Lb.
  destruct (zfill_short_digits a Ha Da La) as [_ [Ea [Aa Va]]].
  destruct (zfill_short_digits b Hb Db Lb) as [_ [Eb [Ab Vb]]].
  pose proof (digits_compare (Py.zfill 8 a) (Py.zfill 8 b)
                (eq_trans Ea (eq_sym Eb)) Aa Ab) as Hcmp.
  rewrite Va, Vb in Hcmp.
  split; [now apply version_part_digits|].
  split; [now apply version_part_digits|].
  split; [|split; [|reflexivity]].
  - unfold Py.str_lt, String.ltb, N.ltb. now rewrite Hcmp.
  - destruct (String.eqb_spec (Py.zfill 8 a) (Py.zfill 8 b)) as [E|E].
    + rewrite E, str_compare_refl in Hcmp. symmetry in Hcmp.
      apply N.compare_eq_iff in Hcmp. symmetry. now apply N.eqb_eq.
    + symmetry. apply N.eqb_neq. intros Hv.
      rewrite Hv, N.compare_refl in Hcmp.
      now apply String.compare_eq_iff in Hcmp.
Qed.

Lemma numeric_tokens_compare_witness :
  version_part "9" = [Py.zfill 8 "9"] /\ version_part "010" = [Py.zfill 8 "010"]
  /\ Py.str_lt (Py.zfill 8 "9") (Py.zfill 8 "010")
     = (digits_value "9" <? digits_value "010")%N
  /\ (Py.zfill 8 "9" =? Py.zfill 8 "010") = (digits_value "9" =? digits_value "010")%N
  /\ Py.str_lt (Py.zfill 8 "100000000") (Py.zfill 8 "99999999") = true.
Proof.
  apply (numeric_tokens_compare "9" "010");
    first [discriminate | reflexivity | cbn; lia].
Defined.

(** ** Names, again *)







(** ** URLs *)

Lemma quote_char_url (c : ascii) : all_chars url_char (quote_char c) = true.
Proof. destruct c as [[] [] [] [] [] [] [] []]; reflexivity. Qed.

Lemma all_chars_append (p : ascii -> bool) (a b : string) :
  all_chars p (a ++ b) = all_chars p a && all_chars p b.
Proof.
  induction a as [|c a IH]; [reflexivity|].
  cbn [append all_chars]. now rewrite IH, andb_assoc.
Qed.

Lemma quote_url (s : string) : all_chars url_char (quote s) = true.
Proof.
  induction s as [|c s IH]; [reflexivity|].
  cbn [quote]. now rewrite all_chars_append, quote_char_url, IH.
Qed.

(** X23: the name made for a URL holds nothing but ASCII letters, digits
    and the marks '_', '.', '-', '~', '/' and '%'. *)
Theorem normalize_pkgname_for_url_chars (name : string) :
  all_chars url_char (normalize_pkgname_for_url name) = true.
Proof. apply quote_url. Qed.

Lemma quote_safe_id (s : string) :
  all_chars quote_safe s = true -> quote s = s.
Proof.
  induction s as [|c s IH]; [reflexivity|].
  cbn [all_chars quote]. intros H. apply andb_true_iff in H as [Hc Hs].
  unfold quote_char. now rewrite Hc, (IH Hs).
Qed.

Lemma name_char_safe (c : ascii) :
  name_char c = true -> quote_safe (Py.lower_char c) = true.
Proof. destruct c as [[] [] [] [] [] [] [] []]; cbv; congruence. Qed.

Lemma sub_separators_safe (s : string) (b : bool) :
  all_chars name_char s = true ->
  all_chars quote_safe (Py.lower (sub_separators b s)) = true.
Proof.
  revert b; induction s as [|c s IH]; intros b H; [reflexivity|].
  cbn [all_chars] in H. apply andb_true_iff in H as [Hc Hs].
  cbn [sub_separators]. destruct (is_separator c).
  - destruct b; [now apply IH|]. cbn [Py.lower all_chars].
    rewrite (IH true Hs). reflexivity.
  - cbn [Py.lower all_chars]. now rewrite (name_char_safe c Hc), (IH false Hs).
Qed.

(** X24: for a name of ASCII letters, digits and separators the name made
    for a URL is the normalised name. *)
Theorem normalize_pkgname_for_url_plain (name : string) :
  all_chars name_char name = true ->
  normalize_pkgname_for_url name = normalize_pkgname name.
Proof.
  intros H. unfold normalize_pkgname_for_url, normalize_pkgname.
  apply quote_safe_id. now apply sub_separators_safe.
Qed.

Lemma normalize_pkgname_for_url_plain_witness :
  normalize_pkgname_for_url "Foo_Bar.Baz" = normalize_pkgname "Foo_Bar.Baz".
Proof. apply (normalize_pkgname_for_url_plain "Foo_Bar.Baz"). reflexivity. Defined.

(** ** Files under the root *)

Lemma no_slash_start (s : string) :
  Py.contains s "/" = false -> Py.startswith s "/" = false.
Proof.
  destruct s as [|c s]; [reflexivity|].
  rewrite contains_cons. intros H. now apply orb_false_iff in H as [H _].
Qed.

Lemma basename_path_join (top filename : string) :
  Py.contains filename "/" = false ->
  basename (path_join top filename) = filename.
Proof.
  intros H. unfold path_join. rewrite (no_slash_start filename H).
  destruct (top =? "") eqn:Etop.
  - apply String.eqb_eq in Etop as ->. now apply basename_no_slash.
  - cbn [orb]. destruct (Py.endswith top "/") eqn:Eend.
    + apply endswith_inv in Eend as [a ->].
      now rewrite basename_append, basename_slash_end.
    + rewrite <- append_assoc.
      now rewrite basename_append, basename_slash_end.
Qed.

(** X25: [exists] and [store] refuse a file name with a slash by an
    assertion that fails; for any other file name, under any root, they
    test and write one path, which is that of the entry of the root with
    this name: its base name is the file name. *)
Theorem store_and_exists_path {A : Type} (top filename : string)
    (os_path_exists : string -> bool) (save_method : string -> bool -> A) :
  if Py.contains filename "/"
  then exists_ os_path_exists top filename = Raises AssertionError
       /\ store top filename save_method = Raises AssertionError
  else exists_ os_path_exists top filename
       = Returns (os_path_exists (path_join top filename))
       /\ store top filename save_method
          = Returns (save_method (path_join top filename) true)
       /\ basename (path_join top filename) = filename.
Proof.
  unfold exists_, store.
  destruct (Py.contains filename "/") eqn:E; repeat split.
  now apply basename_path_join.
Qed.

Lemma count_slash_none (s : string) :
  Py.contains s "/" = false -> Py.count_char "/" s = 0.
Proof.
  induction s as [|c s IH]; [reflexivity|].
  rewrite contains_slash_cons. intros H. apply orb_false_iff in H as [Hc Hs].
  cbn [Py.count_char]. now rewrite Hc, (IH Hs).
Qed.

Lemma rsplit_last_slash (base last : string) :
  Py.contains last "/" = false ->
  rsplit_last "/" (base ++ "/" ++ last) = (base, last).
Proof.
  intros H. induction base as [|c base IH].
  - cbn [append rsplit_last]. now rewrite (count_slash_none last H).
  - cbn [append rsplit_last]. cbn [append] in IH. rewrite IH.
    rewrite count_char_append.
    change (Py.count_char "/" (String "/" last)) with (1 + Py.count_char "/" last).
    replace (0 <? Py.count_char "/" base + (1 + Py.count_char "/" last))%nat with true;
      [reflexivity|].
    symmetry. apply Nat.ltb_lt. lia.
Qed.

Lemma drop_last_snoc (s : string) (c : ascii) : drop_last (s ++ String c "") = s.
Proof.
  induction s as [|d s IH]; [reflexivity|].
  cbn [append drop_last]. rewrite IH. now destruct s.
Qed.

(** X26: the redirect path is the path of the request with its last segment
    replaced by "simple/", the quoted prefix and a slash, whether or not
    the path of the request ends with a slash. *)
Theorem redirect_replaces_last_segment (base last prefix : string) :
  valid_name last = true ->
  get_bad_url_redirect_path (base ++ "/" ++ last) prefix
  = base ++ "/simple/" ++ quote prefix ++ "/"
  /\ get_bad_url_redirect_path (base ++ "/" ++ last ++ "/") prefix
     = base ++ "/simple/" ++ quote prefix ++ "/".
Proof.
  intros Hlast.
  destruct (valid_name_inv last Hlast) as [Hne [_ Hend]].
  assert (Hslash : Py.contains last "/" = false).
  { unfold valid_name in Hlast. apply andb_true_iff in Hlast as [_ H].
    now apply negb_true_iff in H. }
  assert (Hopen : Py.endswith (base ++ "/" ++ last) "/" = false).
  { destruct last as [|c r]; [congruence|].
    rewrite <- append_assoc. now rewrite endswith_slash_append. }
  unfold get_bad_url_redirect_path. split.
  - now rewrite Hopen, rsplit_last_slash.
  - replace (base ++ "/" ++ last ++ "/") with ((base ++ "/" ++ last) ++ "/")
      by (now rewrite !append_assoc).
    now rewrite endswith_append, drop_last_snoc, rsplit_last_slash.
Qed.

Lemma redirect_replaces_last_segment_witness :
  get_bad_url_redirect_path ("/pypi" ++ "/" ++ "Foo Bar") "Foo Bar"
  = "/pypi" ++ "/simple/" ++ quote "Foo Bar" ++ "/"
  /\ get_bad_url_redirect_path ("/pypi" ++ "/" ++ "Foo Bar" ++ "/") "Foo Bar"
     = "/pypi" ++ "/simple/" ++ quote "Foo Bar" ++ "/".
Proof.
  apply (redirect_replaces_last_segment "/pypi" "Foo Bar" "Foo Bar").
  reflexivity.
Defined.

(** ** Digests *)






(** ** The hash fragment of a new record *)

Lemma replace_char_gone (a b : ascii) (s : string) :
  Ascii.eqb b a = false ->
  Py.count_char a (Py.replace_char a b s) = 0.
Proof.
  intros Hab. induction s as [|c s IH]; [reflexivity|].
  cbn [Py.replace_char Py.count_char]. rewrite IH.
  destruct (Ascii.eqb c a) eqn:E.
  - rewrite Ascii.eqb_sym. now rewrite Hab.
  - rewrite Ascii.eqb_sym. now rewrite E.
Qed.

(** X28: asked without algorithm, a record that was just made returns its
    relative path with every backslash turned into a slash, and keeps it as
    its memo; [digest_file] is not called, so that nothing is read and
    nothing can fail. *)
Theorem fname_and_hash_plain
    (digest_file : option string -> string -> option string)
    (name ver relfn : string) (fn top : option string) (rep : option PkgFile) :
  fname_and_hash digest_file (PkgFile_init name ver fn top (Some relfn) rep) ""
  = Some (Some (Py.replace_char "\" "/" relfn),
          set_fname_and_hash (PkgFile_init name ver fn top (Some relfn) rep)
            (Some (Py.replace_char "\" "/" relfn)))
  /\ Py.count_char "\" (Py.replace_char "\" "/" relfn) = 0.
Proof. split; [reflexivity | now apply replace_char_gone]. Qed.
